(** * boost::scope::unique_resource  (include/boost/scope/unique_resource.hpp)

    A shallow embedding of the [unique_resource] guard and of the storage
    classes it is built from, and the properties of the guard that follow
    from the code.

    Conventions of the embedding.

    - [Resource] and [Deleter] are object (non-reference) types, so
      [internal_resource_type = resource_type] and
      [internal_deleter_type = deleter_type]; constructor and [reset]
      arguments have the types [Resource] and [Deleter] themselves.
    - What the C++ decides at compile time from [noexcept] specifications is
      the record [type_traits]; what the user supplied operations do at run
      time is the record [behaviour].  The two are tied by
      [noexcept_respected]: an operation declared [noexcept] does not throw.
    - A constructor or assignment that succeeds gives the target the value of
      its source.  A move leaves the source in the state [res_moved_from] /
      [del_moved_from]; a copy leaves it untouched.  An assignment or a swap
      that throws leaves its operands in the state the operation itself
      chooses.
    - The default construction of a resource or of a deleter may throw; when
      it returns, the object has the value [make_default] /
      [default_deleter].
    - A deleter receives the resource it is invoked on and acts on the
      environment; it does not modify the objects stored in the guard.  Every
      invocation, also one that throws, is appended to [calls].
    - The objects of a member function of two guards are places in its
      state, so that [g = std::move(g)] runs the code of [operator=] on one
      object.  A stored value that is assigned from itself ends in its
      moved-from state after a move, and as it was after a copy that
      returns.
    - [operator=] of the guard and [make_unique_resource_checked] are
      modelled with the boundary of their [noexcept] specification, which
      does not cover the deleter invocation of [reset()], respectively the
      default construction of the resource: an exception that reaches the
      boundary ends the program.  The other functions are modelled by their
      bodies. *)

From Stdlib Require Import List Bool ZArith Lia.
Import ListNotations.

Set Implicit Arguments.

Section UniqueResource.

Variables Res Del Exn Env : Type.

(** ** Exceptions and mutable state *)

(** The part of the program state outside the guards: the deleter
    invocations made so far, oldest first, and the state the user supplied
    operations read and write. *)
Record world := World { calls : list (Del * Res); env : Env }.

Inductive outcome (A : Type) : Type :=
| Normal (a : A)
| Thrown (e : Exn).
Arguments Thrown {A} e.

(** A computation over the objects [S] it may mutate.  An exception does
    not roll anything back: the state at the throw point is what the
    handler, or the caller, sees. *)
Definition M (S A : Type) : Type := S -> world -> outcome A * S * world.

Definition ret {S A} (a : A) : M S A := fun s w => (Normal a, s, w).

Definition throw {S A} (e : Exn) : M S A := fun s w => (Thrown e, s, w).

Definition bind {S A B} (m : M S A) (k : A -> M S B) : M S B :=
  fun s w =>
    match m s w with
    | (Normal a, s', w') => k a s' w'
    | (Thrown e, s', w') => (Thrown e, s', w')
    end.

Notation "x <- m ;; k" := (bind m (fun x => k))
  (at level 61, m at next level, right associativity).
Notation "m ;; k" := (bind m (fun _ => k))
  (at level 61, right associativity).

Definition gets {S A} (f : S -> A) : M S A := fun s w => (Normal (f s), s, w).

Definition modify {S} (f : S -> S) : M S unit := fun s w => (Normal tt, f s, w).

Definition when {S} (b : bool) (m : M S unit) : M S unit :=
  if b then m else ret tt.

(** [try { m } catch (...) { h }]; [h] receives the exception in flight so
    that it can rethrow it. *)
Definition try_catch {S A} (m : M S A) (h : Exn -> M S A) : M S A :=
  fun s w =>
    match m s w with
    | (Normal a, s', w') => (Normal a, s', w')
    | (Thrown e, s', w') => h e s' w'
    end.

(** The function-try-block of a constructor: when the handler runs to its
    end the exception is rethrown. *)
Definition ctor_try {S A} (m : M S A) (h : M S unit) : M S A :=
  try_catch m (fun e => h ;; throw e).

(** Where an object lives in the state [S] of a member function of two
    objects.  Two distinct objects [*this] and [that] are the components of
    a pair; in [g = std::move(g)] both are the one object the state
    consists of. *)
Record place (S X : Type) := Place { rd : S -> X; wr : X -> S -> S }.

Definition first_of {X Y} : place (X * Y) X :=
  Place fst (fun x s => (x, snd s)).

Definition second_of {X Y} : place (X * Y) Y :=
  Place snd (fun y s => (fst s, y)).

Definition itself {X} : place X X :=
  Place (fun x => x) (fun x _ => x).

(** Run a member function of one object on the object at [p]. *)
Definition at_place {S X A} (p : place S X) (m : M X A) : M S A :=
  fun s w => match m (rd p s) w with (o, x, w') => (o, wr p x s, w') end.

(** How a call of a function with a [noexcept] specification ends: it
    exits, normally or (if the specification allows it) with an exception,
    or an exception reaches the [noexcept] boundary and [std::terminate]
    ends the program in the world reached so far. *)
Inductive ending (X : Type) : Type :=
| Exits (x : X)
| Terminates (w : world).
Arguments Exits {X} x.
Arguments Terminates {X} w.

(** A function declared [noexcept(b)] with body [m]. *)
Definition noexcept_if {S A} (b : bool) (m : M S A)
  : S -> world -> ending (outcome A * S * world) :=
  fun s w =>
    match m s w with
    | (Normal a, s', w') => Exits (Normal a, s', w')
    | (Thrown e, s', w') =>
        if b then Terminates w' else Exits (Thrown e, s', w')
    end.

(** ** The template arguments *)

(** What the code reads off [Resource] and [Deleter] at compile time.  The
    headers [move_or_copy_construct_ref.hpp] and [move_or_copy_assign_ref.hpp]
    select an rvalue reference when the move is [noexcept] and a const
    lvalue reference otherwise, as the documentation of the constructors
    and of [reset] in [unique_resource.hpp] states. *)
Record type_traits := {
  res_nothrow_move_constructible : bool;
  res_nothrow_copy_constructible : bool;
  del_nothrow_move_constructible : bool;
  del_nothrow_copy_constructible : bool;
  res_nothrow_move_assignable : bool;
  res_nothrow_copy_assignable : bool;
  del_nothrow_move_assignable : bool;
  del_nothrow_copy_assignable : bool;
  res_nothrow_swappable : bool;
  del_nothrow_swappable : bool;
  del_nothrow_invocable : bool;
  (** [has_deallocated_state]: [Traits::is_allocated(res)] is well formed *)
  traits_has_is_allocated : bool;
  (** [has_custom_default]: [Traits::make_default()] is well formed and
      [Resource] is constructible from its result *)
  traits_has_make_default : bool;
  (** [noexcept(Traits::make_default())] *)
  traits_make_default_noexcept : bool;
  (** [is_nothrow_assignable< Resource&, decltype(Traits::make_default()) >] *)
  res_nothrow_assignable_from_default : bool
}.

(** What the operations of [Resource], [Deleter] and [Traits] do at run
    time.  [None] is a normal return.  A throwing assignment reports the
    state it left its target in, a throwing swap the states of both
    operands. *)
Record behaviour := {
  res_moved_from : Res -> Res;
  del_moved_from : Del -> Del;
  res_copy_construct : Res -> Env -> option Exn * Env;
  del_copy_construct : Del -> Env -> option Exn * Env;
  res_copy_assign : Res -> Res -> Env -> option (Exn * Res) * Env;
  del_copy_assign : Del -> Del -> Env -> option (Exn * Del) * Env;
  res_swap : Res -> Res -> Env -> option (Exn * (Res * Res)) * Env;
  del_swap : Del -> Del -> Env -> option (Exn * (Del * Del)) * Env;
  del_invoke : Del -> Res -> Env -> option Exn * Env;
  (** the value of [Traits::make_default()], or of [Resource()] without
      custom default *)
  make_default : Res;
  (** the default construction of the stored resource, which gives it the
      value [make_default] when it returns *)
  res_default_construct : Env -> option Exn * Env;
  (** [Traits::is_allocated] *)
  traits_is_allocated : Res -> bool;
  (** the value of [Deleter()] *)
  default_deleter : Del;
  (** the default construction of the stored deleter *)
  del_default_construct : Env -> option Exn * Env
}.

Variable T : type_traits.
Variable U : behaviour.

(** An operation declared [noexcept] does not throw. *)
Record noexcept_respected : Prop := {
  nx_res_copy_construct : res_nothrow_copy_constructible T = true ->
    forall r e, fst (res_copy_construct U r e) = None;
  nx_del_copy_construct : del_nothrow_copy_constructible T = true ->
    forall d e, fst (del_copy_construct U d e) = None;
  nx_res_copy_assign : res_nothrow_copy_assignable T = true ->
    forall a b e, fst (res_copy_assign U a b e) = None;
  nx_del_copy_assign : del_nothrow_copy_assignable T = true ->
    forall a b e, fst (del_copy_assign U a b e) = None;
  nx_res_swap : res_nothrow_swappable T = true ->
    forall a b e, fst (res_swap U a b e) = None;
  nx_del_swap : del_nothrow_swappable T = true ->
    forall a b e, fst (del_swap U a b e) = None;
  nx_del_invoke : del_nothrow_invocable T = true ->
    forall d r e, fst (del_invoke U d r e) = None
}.

(** The documented requirement on [Traits]:
    [is_allocated(make_default())] is [false]. *)
Definition traits_conforming : Prop :=
  traits_is_allocated U (make_default U) = false.

(** ** Operations on the stored values *)

(** A user supplied operation that only returns or throws. *)
Definition user {S} (f : Env -> option Exn * Env) : M S unit :=
  fun s w =>
    match f (env w) with
    | (None, e') => (Normal tt, s, World (calls w) e')
    | (Some x, e') => (Thrown x, s, World (calls w) e')
    end.

(** [del(res)] *)
Definition invoke {S} (del : Del) (res : Res) : M S unit :=
  fun s w =>
    match del_invoke U del res (env w) with
    | (None, e') => (Normal tt, s, World (calls w ++ [(del, res)]) e')
    | (Some x, e') => (Thrown x, s, World (calls w ++ [(del, res)]) e')
    end.

(** [is_nothrow_constructible< T, move_or_copy_construct_ref< T >::type >] *)
Definition res_nothrow_constructible : bool :=
  res_nothrow_move_constructible T || res_nothrow_copy_constructible T.

Definition del_nothrow_constructible : bool :=
  del_nothrow_move_constructible T || del_nothrow_copy_constructible T.

(** [is_nothrow_assignable< T&, move_or_copy_assign_ref< T >::type >] *)
Definition res_nothrow_assignable : bool :=
  res_nothrow_move_assignable T || res_nothrow_copy_assignable T.

Definition del_nothrow_assignable : bool :=
  del_nothrow_move_assignable T || del_nothrow_copy_assignable T.

(** [Resource(static_cast< move_or_copy_construct_ref< Resource >::type >(src))]:
    the value of the new object and the state of [src] afterwards. *)
Definition construct_res {S} (src : Res) : M S (Res * Res) :=
  if res_nothrow_move_constructible T then ret (src, res_moved_from U src)
  else user (res_copy_construct U src) ;; ret (src, src).

Definition construct_del {S} (src : Del) : M S (Del * Del) :=
  if del_nothrow_move_constructible T then ret (src, del_moved_from U src)
  else user (del_copy_construct U src) ;; ret (src, src).

(** [dst = static_cast< move_or_copy_assign_ref< Resource >::type >(src)],
    for a target read and written through [getd] and [setd]; returns the
    state of [src] afterwards. *)
Definition assign_res {S} (getd : S -> Res) (setd : Res -> S -> S) (src : Res)
  : M S Res :=
  if res_nothrow_move_assignable T then
    modify (setd src) ;; ret (res_moved_from U src)
  else
    fun s w =>
      match res_copy_assign U (getd s) src (env w) with
      | (None, e') => (Normal src, setd src s, World (calls w) e')
      | (Some (x, d'), e') => (Thrown x, setd d' s, World (calls w) e')
      end.

Definition assign_del {S} (getd : S -> Del) (setd : Del -> S -> S) (src : Del)
  : M S Del :=
  if del_nothrow_move_assignable T then
    modify (setd src) ;; ret (del_moved_from U src)
  else
    fun s w =>
      match del_copy_assign U (getd s) src (env w) with
      | (None, e') => (Normal src, setd src s, World (calls w) e')
      | (Some (x, d'), e') => (Thrown x, setd d' s, World (calls w) e')
      end.

(** [boost::core::invoke_swap(a, b)] on two stored resources / deleters. *)
Definition swap_res {S} (geta : S -> Res) (seta : Res -> S -> S)
    (getb : S -> Res) (setb : Res -> S -> S) : M S unit :=
  fun s w =>
    match res_swap U (geta s) (getb s) (env w) with
    | (None, e') => (Normal tt, setb (geta s) (seta (getb s) s), World (calls w) e')
    | (Some (x, (a', b')), e') => (Thrown x, setb b' (seta a' s), World (calls w) e')
    end.

Definition swap_del {S} (geta : S -> Del) (seta : Del -> S -> S)
    (getb : S -> Del) (setb : Del -> S -> S) : M S unit :=
  fun s w =>
    match del_swap U (geta s) (getb s) (env w) with
    | (None, e') => (Normal tt, setb (geta s) (seta (getb s) s), World (calls w) e')
    | (Some (x, (a', b')), e') => (Thrown x, setb b' (seta a' s), World (calls w) e')
    end.

(** ** resource_holder and deleter_holder *)

(** [resource_holder()]: [resource_base()], or
    [resource_base(traits_type::make_default())] with a custom default. *)
Definition resource_holder_0 {S} : M S Res :=
  user (res_default_construct U) ;; ret (make_default U).

(** [resource_holder(R&& res)] *)
Definition resource_holder_1 {S} (res : Res) : M S (Res * Res) :=
  construct_res res.

(** [resource_holder(R&& res, D&& del, bool allocated)]: dispatches on
    whether the construction is [noexcept]; if it is not and it throws,
    the handler invokes [del] on the argument [res]. *)
Definition resource_holder_3 {S} (res : Res) (del : Del) (allocated : bool)
  : M S (Res * Res) :=
  if res_nothrow_constructible then construct_res res
  else ctor_try (construct_res res) (when allocated (invoke del res)).

(** [deleter_holder()] *)
Definition deleter_holder_0 {S} : M S Del :=
  user (del_default_construct U) ;; ret (default_deleter U).

(** [deleter_holder(D&& del)] *)
Definition deleter_holder_1 {S} (del : Del) : M S (Del * Del) :=
  construct_del del.

(** [deleter_holder(D&& del, resource_type& res, bool allocated)]; [res] is
    the resource already stored in the object under construction. *)
Definition deleter_holder_3 {S} (del : Del) (res : Res) (allocated : bool)
  : M S (Del * Del) :=
  if del_nothrow_constructible then construct_del del
  else ctor_try (construct_del del) (when allocated (invoke del res)).

(** ** unique_resource_data< Resource, Deleter, Traits, false >

    The storage that tracks allocation with the flag [m_allocated]. *)

Record flag_data := FlagData {
  f_resource : Res;
  f_deleter : Del;
  m_allocated : bool
}.

Definition set_f_resource (r : Res) (d : flag_data) : flag_data :=
  FlagData r (f_deleter d) (m_allocated d).

Definition set_f_deleter (x : Del) (d : flag_data) : flag_data :=
  FlagData (f_resource d) x (m_allocated d).

Definition set_m_allocated (a : bool) (d : flag_data) : flag_data :=
  FlagData (f_resource d) (f_deleter d) a.

(** [unique_resource_data()] *)
Definition flag_ctor_default : M unit flag_data :=
  r <- resource_holder_0 ;;
  d <- deleter_holder_0 ;;
  ret (FlagData r d false).

(** [unique_resource_data(default_resource_t, D&& del)] *)
Definition flag_ctor_default_resource (del : Del) : M unit flag_data :=
  r <- resource_holder_0 ;;
  dd <- deleter_holder_1 del ;;
  ret (FlagData r (fst dd) false).

(** [unique_resource_data(R&& res, D&& del)] *)
Definition flag_ctor (res : Res) (del : Del) : M unit flag_data :=
  rr <- resource_holder_3 res del true ;;
  dd <- deleter_holder_3 del (fst rr) true ;;
  ret (FlagData (fst rr) (fst dd) true).

(** [unique_resource_data(unique_resource_data&& that, std::true_type)];
    the state of the computation is [that]. *)
Definition flag_move_ctor_true : M flag_data flag_data :=
  src <- gets f_resource ;;
  rr <- resource_holder_1 src ;;
  modify (set_f_resource (snd rr)) ;;
  dsrc <- gets f_deleter ;;
  dd <- deleter_holder_3 dsrc (fst rr) false ;;
  modify (set_f_deleter (snd dd)) ;;
  a <- gets m_allocated ;;
  modify (set_m_allocated false) ;;
  ret (FlagData (fst rr) (fst dd) a).

(** [unique_resource_data(unique_resource_data&& that, std::false_type)] *)
Definition flag_move_ctor_false : M flag_data flag_data :=
  ctor_try
    (src <- gets f_resource ;;
     rr <- resource_holder_1 src ;;
     modify (set_f_resource (snd rr)) ;;
     dsrc <- gets f_deleter ;;
     a0 <- gets m_allocated ;;
     dd <- deleter_holder_3 dsrc (fst rr)
             (res_nothrow_move_constructible T && a0) ;;
     modify (set_f_deleter (snd dd)) ;;
     a <- gets m_allocated ;;
     modify (set_m_allocated false) ;;
     ret (FlagData (fst rr) (fst dd) a))
    (when (res_nothrow_move_constructible T) (modify (set_m_allocated false))).

(** [unique_resource_data(unique_resource_data&& that)] *)
Definition flag_move_ctor : M flag_data flag_data :=
  if del_nothrow_constructible then flag_move_ctor_true
  else flag_move_ctor_false.

(** [get_internal_resource() = move_or_copy_assign(that.get_resource())]
    and the same for the deleter, for [*this] and [that] at the places
    [this] and [that] of the state. *)
Definition flag_assign_res_from_that {S} (this that : place S flag_data)
  : M S unit :=
  src <- gets (fun s => f_resource (rd that s)) ;;
  src' <- assign_res (fun s => f_resource (rd this s))
            (fun r s => wr this (set_f_resource r (rd this s)) s) src ;;
  modify (fun s => wr that (set_f_resource src' (rd that s)) s).

Definition flag_assign_del_from_that {S} (this that : place S flag_data)
  : M S unit :=
  src <- gets (fun s => f_deleter (rd that s)) ;;
  src' <- assign_del (fun s => f_deleter (rd this s))
            (fun x s => wr this (set_f_deleter x (rd this s)) s) src ;;
  modify (fun s => wr that (set_f_deleter src' (rd that s)) s).

(** [m_allocated = that.m_allocated; that.m_allocated = false;] *)
Definition flag_move_flag {S} (this that : place S flag_data) : M S unit :=
  a <- gets (fun s => m_allocated (rd that s)) ;;
  modify (fun s => wr this (set_m_allocated a (rd this s)) s) ;;
  modify (fun s => wr that (set_m_allocated false (rd that s)) s).

(** [assign(unique_resource_data&& that, std::true_type)] *)
Definition flag_assign_true {S} (this that : place S flag_data) : M S unit :=
  flag_assign_res_from_that this that ;;
  flag_assign_del_from_that this that ;;
  flag_move_flag this that.

(** [assign(unique_resource_data&& that, std::false_type)] *)
Definition flag_assign_false {S} (this that : place S flag_data) : M S unit :=
  flag_assign_del_from_that this that ;;
  flag_assign_res_from_that this that ;;
  flag_move_flag this that.

(** [operator= (unique_resource_data&& that)] *)
Definition flag_assign {S} (this that : place S flag_data) : M S unit :=
  if del_nothrow_move_assignable T then flag_assign_true this that
  else flag_assign_false this that.

(** [assign_resource(R&& res)] *)
Definition flag_assign_resource (res : Res) : M flag_data unit :=
  assign_res f_resource set_f_resource res ;;
  modify (set_m_allocated true).

Definition flag_swap_resources : M (flag_data * flag_data) unit :=
  swap_res (fun s => f_resource (fst s))
           (fun r s => (set_f_resource r (fst s), snd s))
           (fun s => f_resource (snd s))
           (fun r s => (fst s, set_f_resource r (snd s))).

Definition flag_swap_deleters : M (flag_data * flag_data) unit :=
  swap_del (fun s => f_deleter (fst s))
           (fun x s => (set_f_deleter x (fst s), snd s))
           (fun s => f_deleter (snd s))
           (fun x s => (fst s, set_f_deleter x (snd s))).

Definition flag_swap_flags : M (flag_data * flag_data) unit :=
  modify (fun s => (set_m_allocated (m_allocated (snd s)) (fst s),
                    set_m_allocated (m_allocated (fst s)) (snd s))).

(** [swap_impl(that, std::true_type, std::true_type)] *)
Definition flag_swap_impl_tt : M (flag_data * flag_data) unit :=
  flag_swap_resources ;; flag_swap_deleters ;; flag_swap_flags.

(** [swap_impl(that, std::true_type, std::false_type)] *)
Definition flag_swap_impl_tf : M (flag_data * flag_data) unit :=
  flag_swap_resources ;;
  try_catch flag_swap_deleters (fun e => flag_swap_resources ;; throw e) ;;
  flag_swap_flags.

(** [swap_impl(that, std::false_type, std::false_type)] *)
Definition flag_swap_impl_ff : M (flag_data * flag_data) unit :=
  flag_swap_deleters ;;
  try_catch flag_swap_resources (fun e => flag_swap_deleters ;; throw e) ;;
  flag_swap_flags.

(** [swap(unique_resource_data& that)]: the tags are
    [is_nothrow_swappable< resource >] and the conjunction of that with
    [is_nothrow_swappable< deleter >]. *)
Definition flag_swap : M (flag_data * flag_data) unit :=
  if res_nothrow_swappable T then
    if res_nothrow_swappable T && del_nothrow_swappable T
    then flag_swap_impl_tt else flag_swap_impl_tf
  else flag_swap_impl_ff.

(** ** unique_resource_data< Resource, Deleter, Traits, true >

    The storage that derives allocation from the resource value. *)

Record traits_data := TraitsData {
  t_resource : Res;
  t_deleter : Del
}.

Definition set_t_resource (r : Res) (d : traits_data) : traits_data :=
  TraitsData r (t_deleter d).

Definition set_t_deleter (x : Del) (d : traits_data) : traits_data :=
  TraitsData (t_resource d) x.

(** [is_allocated()] *)
Definition traits_data_is_allocated (d : traits_data) : bool :=
  traits_is_allocated U (t_resource d).

(** [set_deallocated()] *)
Definition traits_data_set_deallocated (d : traits_data) : traits_data :=
  set_t_resource (make_default U) d.

(** [unique_resource_data()] *)
Definition traits_ctor_default : M unit traits_data :=
  r <- resource_holder_0 ;;
  d <- deleter_holder_0 ;;
  ret (TraitsData r d).

(** [unique_resource_data(default_resource_t, D&& del)] *)
Definition traits_ctor_default_resource (del : Del) : M unit traits_data :=
  r <- resource_holder_0 ;;
  dd <- deleter_holder_1 del ;;
  ret (TraitsData r (fst dd)).

(** [unique_resource_data(R&& res, D&& del, bool allocated)] *)
Definition traits_ctor_3 (res : Res) (del : Del) (allocated : bool)
  : M unit traits_data :=
  rr <- resource_holder_3 res del allocated ;;
  dd <- deleter_holder_3 del (fst rr) allocated ;;
  ret (TraitsData (fst rr) (fst dd)).

(** [unique_resource_data(R&& res, D&& del)] *)
Definition traits_ctor (res : Res) (del : Del) : M unit traits_data :=
  traits_ctor_3 res del (traits_is_allocated U res).

(** [unique_resource_data(unique_resource_data&& that, std::true_type)] *)
Definition traits_move_ctor_true : M traits_data traits_data :=
  src <- gets t_resource ;;
  rr <- resource_holder_1 src ;;
  modify (set_t_resource (snd rr)) ;;
  dsrc <- gets t_deleter ;;
  dd <- deleter_holder_3 dsrc (fst rr) false ;;
  modify (set_t_deleter (snd dd)) ;;
  modify traits_data_set_deallocated ;;
  ret (TraitsData (fst rr) (fst dd)).

(** [unique_resource_data(unique_resource_data&& that, std::false_type)];
    the [is_allocated()] in the third argument of the deleter holder is
    that of the object under construction, whose resource is in place. *)
Definition traits_move_ctor_false : M traits_data traits_data :=
  ctor_try
    (src <- gets t_resource ;;
     rr <- resource_holder_1 src ;;
     modify (set_t_resource (snd rr)) ;;
     dsrc <- gets t_deleter ;;
     dd <- deleter_holder_3 dsrc (fst rr)
             (res_nothrow_move_constructible T
              && traits_is_allocated U (fst rr)) ;;
     modify (set_t_deleter (snd dd)) ;;
     modify traits_data_set_deallocated ;;
     ret (TraitsData (fst rr) (fst dd)))
    (when (res_nothrow_move_constructible T)
          (modify traits_data_set_deallocated)).

(** [unique_resource_data(unique_resource_data&& that)] *)
Definition traits_move_ctor : M traits_data traits_data :=
  if del_nothrow_constructible then traits_move_ctor_true
  else traits_move_ctor_false.

Definition traits_assign_res_from_that {S} (this that : place S traits_data)
  : M S unit :=
  src <- gets (fun s => t_resource (rd that s)) ;;
  src' <- assign_res (fun s => t_resource (rd this s))
            (fun r s => wr this (set_t_resource r (rd this s)) s) src ;;
  modify (fun s => wr that (set_t_resource src' (rd that s)) s).

Definition traits_assign_del_from_that {S} (this that : place S traits_data)
  : M S unit :=
  src <- gets (fun s => t_deleter (rd that s)) ;;
  src' <- assign_del (fun s => t_deleter (rd this s))
            (fun x s => wr this (set_t_deleter x (rd this s)) s) src ;;
  modify (fun s => wr that (set_t_deleter src' (rd that s)) s).

(** [assign(unique_resource_data&& that, std::true_type)] *)
Definition traits_assign_true {S} (this that : place S traits_data)
  : M S unit :=
  traits_assign_res_from_that this that ;;
  traits_assign_del_from_that this that ;;
  at_place that (modify traits_data_set_deallocated).

(** [assign(unique_resource_data&& that, std::false_type)] *)
Definition traits_assign_false {S} (this that : place S traits_data)
  : M S unit :=
  traits_assign_del_from_that this that ;;
  traits_assign_res_from_that this that ;;
  at_place that (modify traits_data_set_deallocated).

(** [operator= (unique_resource_data&& that)] *)
Definition traits_assign {S} (this that : place S traits_data) : M S unit :=
  if del_nothrow_move_assignable T then traits_assign_true this that
  else traits_assign_false this that.

(** [assign_resource(R&& res)] *)
Definition traits_assign_resource (res : Res) : M traits_data unit :=
  assign_res t_resource set_t_resource res ;; ret tt.

Definition traits_swap_resources : M (traits_data * traits_data) unit :=
  swap_res (fun s => t_resource (fst s))
           (fun r s => (set_t_resource r (fst s), snd s))
           (fun s => t_resource (snd s))
           (fun r s => (fst s, set_t_resource r (snd s))).

Definition traits_swap_deleters : M (traits_data * traits_data) unit :=
  swap_del (fun s => t_deleter (fst s))
           (fun x s => (set_t_deleter x (fst s), snd s))
           (fun s => t_deleter (snd s))
           (fun x s => (fst s, set_t_deleter x (snd s))).

(** [swap_impl(that, std::true_type, std::true_type)] *)
Definition traits_swap_impl_tt : M (traits_data * traits_data) unit :=
  traits_swap_resources ;; traits_swap_deleters.

(** [swap_impl(that, std::true_type, std::false_type)] *)
Definition traits_swap_impl_tf : M (traits_data * traits_data) unit :=
  traits_swap_resources ;;
  try_catch traits_swap_deleters (fun e => traits_swap_resources ;; throw e).

(** [swap_impl(that, std::false_type, std::false_type)] *)
Definition traits_swap_impl_ff : M (traits_data * traits_data) unit :=
  traits_swap_deleters ;;
  try_catch traits_swap_resources (fun e => traits_swap_deleters ;; throw e).

(** [swap(unique_resource_data& that)] *)
Definition traits_swap : M (traits_data * traits_data) unit :=
  if res_nothrow_swappable T then
    if res_nothrow_swappable T && del_nothrow_swappable T
    then traits_swap_impl_tt else traits_swap_impl_tf
  else traits_swap_impl_ff.

(** ** The storage selected by [use_deallocated_state< Resource, Traits >] *)

(** [has_deallocated_state< Resource, Traits >] and
    [has_custom_default< Resource, Traits >] *)
Definition has_deallocated_state : bool := traits_has_is_allocated T.

Definition has_custom_default : bool := traits_has_make_default T.

(** [use_deallocated_state< Resource, Traits >::value]: [false] unless the
    traits have both members, and then whether [make_default()] is
    [noexcept] and its result can be assigned to the resource without
    throwing. *)
Definition use_deallocated_state : bool :=
  if has_deallocated_state && has_custom_default
  then traits_make_default_noexcept T && res_nothrow_assignable_from_default T
  else false.

Definition unique_resource_data (use_deallocated_state : bool) : Type :=
  if use_deallocated_state then traits_data else flag_data.

Definition get_resource {u} : unique_resource_data u -> Res :=
  match u with true => t_resource | false => f_resource end.

Definition get_deleter {u} : unique_resource_data u -> Del :=
  match u with true => t_deleter | false => f_deleter end.

Definition is_allocated {u} : unique_resource_data u -> bool :=
  match u with true => traits_data_is_allocated | false => m_allocated end.

Definition set_deallocated {u} : unique_resource_data u -> unique_resource_data u :=
  match u with
  | true => traits_data_set_deallocated
  | false => set_m_allocated false
  end.

Definition assign_resource {u} (res : Res) : M (unique_resource_data u) unit :=
  match u with
  | true => traits_assign_resource res
  | false => flag_assign_resource res
  end.

Definition data_ctor_default {u} : M unit (unique_resource_data u) :=
  match u with true => traits_ctor_default | false => flag_ctor_default end.

Definition data_ctor_default_resource {u} (del : Del)
  : M unit (unique_resource_data u) :=
  match u with
  | true => traits_ctor_default_resource del
  | false => flag_ctor_default_resource del
  end.

Definition data_ctor {u} (res : Res) (del : Del)
  : M unit (unique_resource_data u) :=
  match u with true => traits_ctor res del | false => flag_ctor res del end.

Definition data_move_ctor {u}
  : M (unique_resource_data u) (unique_resource_data u) :=
  match u with true => traits_move_ctor | false => flag_move_ctor end.

Definition data_assign {u S}
  : forall this that : place S (unique_resource_data u), M S unit :=
  match u with true => traits_assign | false => flag_assign end.

Definition data_swap {u}
  : M (unique_resource_data u * unique_resource_data u) unit :=
  match u with true => traits_swap | false => flag_swap end.

(** ** unique_resource

    The guard has the single member [m_data]; a guard is identified with
    it. *)

Definition unique_resource (use_deallocated_state : bool) : Type :=
  unique_resource_data use_deallocated_state.

(** [unique_resource()] *)
Definition construct_default {u} : M unit (unique_resource u) :=
  data_ctor_default.

(** [unique_resource(default_resource_t res, D&& del)] *)
Definition construct_default_resource {u} (del : Del)
  : M unit (unique_resource u) :=
  data_ctor_default_resource del.

(** [unique_resource(R&& res, D&& del)] *)
Definition construct {u} (res : Res) (del : Del) : M unit (unique_resource u) :=
  data_ctor res del.

(** [unique_resource(unique_resource&& that)]; the state is [that]. *)
Definition move_construct {u} : M (unique_resource u) (unique_resource u) :=
  data_move_ctor.

(** [allocated()] *)
Definition allocated {u} (g : unique_resource u) : bool := is_allocated g.

(** [get()] *)
Definition get {u} (g : unique_resource u) : Res := get_resource g.

(** [release()] *)
Definition release {u} : M (unique_resource u) unit :=
  modify set_deallocated.

(** [reset()] *)
Definition reset {u} : M (unique_resource u) unit :=
  a <- gets is_allocated ;;
  when a
    (d <- gets get_deleter ;;
     r <- gets get_resource ;;
     invoke d r ;;
     modify set_deallocated).

(** [~unique_resource()] *)
Definition destroy {u} : M (unique_resource u) unit := reset.

(** The body of [operator= (unique_resource&& that)], for [*this] and
    [that] at the places [this] and [that]. *)
Definition move_assign_body {u S} (this that : place S (unique_resource u))
  : M S unit :=
  at_place this reset ;; data_assign this that.

(** [operator= (unique_resource&& that)], which is declared
    [noexcept(std::is_nothrow_move_assignable< data >::value)]; the storage's
    [operator=] is [noexcept] when the resource and the deleter are nothrow
    assignable. *)
Definition move_assign_at {u S} (this that : place S (unique_resource u))
  : S -> world -> ending (outcome unit * S * world) :=
  noexcept_if (res_nothrow_assignable && del_nothrow_assignable)
    (move_assign_body this that).

(** [g = std::move(h)] for two distinct guards; the state is [(g, h)]. *)
Definition move_assign {u}
  : unique_resource u * unique_resource u -> world ->
    ending (outcome unit * (unique_resource u * unique_resource u) * world) :=
  move_assign_at first_of second_of.

(** [g = std::move(g)]; the state is [g]. *)
Definition move_assign_self {u}
  : unique_resource u -> world ->
    ending (outcome unit * unique_resource u * world) :=
  move_assign_at itself itself.

(** [reset_impl(R&& res, std::true_type)] *)
Definition reset_impl_true {u} (res : Res) : M (unique_resource u) unit :=
  reset ;; assign_resource res.

(** [reset_impl(R&& res, std::false_type)] *)
Definition reset_impl_false {u} (res : Res) : M (unique_resource u) unit :=
  try_catch
    (reset ;; assign_resource res)
    (fun e => d <- gets get_deleter ;; invoke d res ;; throw e).

(** [reset(R&& res)] *)
Definition reset_to {u} (res : Res) : M (unique_resource u) unit :=
  if del_nothrow_invocable T && res_nothrow_assignable
  then reset_impl_true res else reset_impl_false res.

(** [swap(unique_resource& that)] *)
Definition swap {u} : M (unique_resource u * unique_resource u) unit :=
  data_swap.

(** The [allocated] argument the storage constructor passes to its holders
    for the resource [res]: the literal [true] with the flag storage,
    [traits_type::is_allocated(res)] with the traits storage. *)
Definition denotes_allocated (u : bool) (res : Res) : bool :=
  if u then traits_is_allocated U res else true.

(** The world after the deleter [d] has run on [r] in the world [w]. *)
Definition after_invoke (d : Del) (r : Res) (w : world)
  : world :=
  World (calls w ++ [(d, r)]) (snd (del_invoke U d r (env w))).

(** Exactly one of two guards is allocated. *)
Definition exactly_one_allocated {u} (g h : unique_resource u) : Prop :=
  xorb (allocated g) (allocated h) = true.

(** A swap that throws leaves both operands as they were. *)
Definition swap_strong_guarantee : Prop :=
  (forall a b e x a' b' e',
      res_swap U a b e = (Some (x, (a', b')), e') -> a' = a /\ b' = b) /\
  (forall a b e x a' b' e',
      del_swap U a b e = (Some (x, (a', b')), e') -> a' = a /\ b' = b).

Variable Invalid : Type.
Variable res_equal : Res -> Invalid -> bool.

(** [make_unique_resource_checked(res, invalid, del)]; [res_equal] is
    [operator==] between the resource and the invalid value.  The guard it
    returns has no traits, hence the flag storage.  The function is declared
    [noexcept] when the resource and the deleter are nothrow constructible
    from the arguments; the default construction of the resource is not
    part of that condition. *)
Definition make_unique_resource_checked (res : Res) (invalid : Invalid)
    (del : Del)
  : unit -> world -> ending (outcome (unique_resource false) * unit * world) :=
  noexcept_if (res_nothrow_constructible && del_nothrow_constructible)
    (if negb (res_equal res invalid) then construct res del
     else construct_default_resource del).

End UniqueResource.

Arguments Thrown {Exn A} e.
Arguments Normal {Exn A} a.
Arguments Exits {Res Del Env X} x.
Arguments Terminates {Res Del Env X} w.
Arguments get_resource {Res Del u} _.
Arguments get_deleter {Res Del u} _.
Arguments get {Res Del u} g.

(** ** Concrete template arguments

    Resources are integers in the manner of file descriptors, deleters and
    exceptions are numbered, and the environment counts the copies,
    assignments, swaps and deleter invocations run so far. *)

(** Every operation of [Resource] and [Deleter] is [noexcept]. *)
Definition nothrow_types : type_traits :=
  {| res_nothrow_move_constructible := true;
     res_nothrow_copy_constructible := true;
     del_nothrow_move_constructible := true;
     del_nothrow_copy_constructible := true;
     res_nothrow_move_assignable := true;
     res_nothrow_copy_assignable := true;
     del_nothrow_move_assignable := true;
     del_nothrow_copy_assignable := true;
     res_nothrow_swappable := true;
     del_nothrow_swappable := true;
     del_nothrow_invocable := true;
     traits_has_is_allocated := true;
     traits_has_make_default := true;
     traits_make_default_noexcept := true;
     res_nothrow_assignable_from_default := true |}.

(** Only the swap of the resource is [noexcept]. *)
Definition throwing_types : type_traits :=
  {| res_nothrow_move_constructible := false;
     res_nothrow_copy_constructible := false;
     del_nothrow_move_constructible := false;
     del_nothrow_copy_constructible := false;
     res_nothrow_move_assignable := false;
     res_nothrow_copy_assignable := false;
     del_nothrow_move_assignable := false;
     del_nothrow_copy_assignable := false;
     res_nothrow_swappable := true;
     del_nothrow_swappable := false;
     del_nothrow_invocable := false;
     traits_has_is_allocated := true;
     traits_has_make_default := true;
     traits_make_default_noexcept := true;
     res_nothrow_assignable_from_default := true |}.

(** As [throwing_types], with a resource whose move constructor is
    [noexcept]. *)
Definition throwing_deleter_types : type_traits :=
  {| res_nothrow_move_constructible := true;
     res_nothrow_copy_constructible := false;
     del_nothrow_move_constructible := false;
     del_nothrow_copy_constructible := false;
     res_nothrow_move_assignable := false;
     res_nothrow_copy_assignable := false;
     del_nothrow_move_assignable := false;
     del_nothrow_copy_assignable := false;
     res_nothrow_swappable := true;
     del_nothrow_swappable := false;
     del_nothrow_invocable := false;
     traits_has_is_allocated := true;
     traits_has_make_default := true;
     traits_make_default_noexcept := true;
     res_nothrow_assignable_from_default := true |}.

(** Nothing throws.  The traits are those of a descriptor: negative values
    are unallocated and [-1] is the default. *)
Definition fd_behaviour : behaviour Z nat nat nat :=
  {| res_moved_from := fun r => r;
     del_moved_from := fun d => d;
     res_copy_construct := fun _ n => (None, S n);
     del_copy_construct := fun _ n => (None, S n);
     res_copy_assign := fun _ _ n => (None, S n);
     del_copy_assign := fun _ _ n => (None, S n);
     res_swap := fun _ _ n => (None, S n);
     del_swap := fun _ _ n => (None, S n);
     del_invoke := fun _ _ n => (None, S n);
     make_default := (-1)%Z;
     res_default_construct := fun n => (None, n);
     traits_is_allocated := fun r => (0 <=? r)%Z;
     default_deleter := 0;
     del_default_construct := fun n => (None, n) |}.

(** Copying or assigning a deleter throws exception [1]; assigning a
    resource throws exception [2] and leaves the target as it was; swapping
    deleters throws exception [3] after the first operand has received the
    value of the second; the deleter throws exception [4] the first time it
    is run. *)
Definition throwing_behaviour : behaviour Z nat nat nat :=
  {| res_moved_from := fun r => r;
     del_moved_from := fun d => d;
     res_copy_construct := fun _ n => (None, S n);
     del_copy_construct := fun _ n => (Some 1, S n);
     res_copy_assign := fun a _ n => (Some (2, a), S n);
     del_copy_assign := fun a _ n => (Some (1, a), S n);
     res_swap := fun _ _ n => (None, S n);
     del_swap := fun _ b n => (Some (3, (b, b)), S n);
     del_invoke := fun _ _ n => (match n with O => Some 4 | S _ => None end, S n);
     make_default := (-1)%Z;
     res_default_construct := fun n => (None, n);
     traits_is_allocated := fun r => (0 <=? r)%Z;
     default_deleter := 0;
     del_default_construct := fun n => (None, n) |}.

(** The resource is copied and its copy may throw; the deleter is nothrow
    movable and assignable, and its invocation may throw. *)
Definition throwing_resource_types : type_traits :=
  {| res_nothrow_move_constructible := false;
     res_nothrow_copy_constructible := false;
     del_nothrow_move_constructible := true;
     del_nothrow_copy_constructible := false;
     res_nothrow_move_assignable := true;
     res_nothrow_copy_assignable := false;
     del_nothrow_move_assignable := true;
     del_nothrow_copy_assignable := false;
     res_nothrow_swappable := true;
     del_nothrow_swappable := false;
     del_nothrow_invocable := false;
     traits_has_is_allocated := true;
     traits_has_make_default := true;
     traits_make_default_noexcept := true;
     res_nothrow_assignable_from_default := true |}.

(** As [throwing_behaviour], and copying a resource throws exception [5]. *)
Definition throwing_resource_behaviour : behaviour Z nat nat nat :=
  {| res_moved_from := fun r => r;
     del_moved_from := fun d => d;
     res_copy_construct := fun _ n => (Some 5, S n);
     del_copy_construct := fun _ n => (Some 1, S n);
     res_copy_assign := fun a _ n => (Some (2, a), S n);
     del_copy_assign := fun a _ n => (Some (1, a), S n);
     res_swap := fun _ _ n => (None, S n);
     del_swap := fun _ b n => (Some (3, (b, b)), S n);
     del_invoke := fun _ _ n => (match n with O => Some 4 | S _ => None end, S n);
     make_default := (-1)%Z;
     res_default_construct := fun n => (None, n);
     traits_is_allocated := fun r => (0 <=? r)%Z;
     default_deleter := 0;
     del_default_construct := fun n => (None, n) |}.

(** Everything is [noexcept] except the assignment of the result of
    [make_default()] to the resource: the traits are complete and
    conforming, and the flag storage is selected. *)
Definition unassignable_default_types : type_traits :=
  {| res_nothrow_move_constructible := true;
     res_nothrow_copy_constructible := true;
     del_nothrow_move_constructible := true;
     del_nothrow_copy_constructible := true;
     res_nothrow_move_assignable := true;
     res_nothrow_copy_assignable := true;
     del_nothrow_move_assignable := true;
     del_nothrow_copy_assignable := true;
     res_nothrow_swappable := true;
     del_nothrow_swappable := true;
     del_nothrow_invocable := true;
     traits_has_is_allocated := true;
     traits_has_make_default := true;
     traits_make_default_noexcept := true;
     res_nothrow_assignable_from_default := false |}.

(** As [fd_behaviour], but the default construction of the resource throws
    exception [6]. *)
Definition throwing_default_behaviour : behaviour Z nat nat nat :=
  {| res_moved_from := fun r => r;
     del_moved_from := fun d => d;
     res_copy_construct := fun _ n => (None, S n);
     del_copy_construct := fun _ n => (None, S n);
     res_copy_assign := fun _ _ n => (None, S n);
     del_copy_assign := fun _ _ n => (None, S n);
     res_swap := fun _ _ n => (None, S n);
     del_swap := fun _ _ n => (None, S n);
     del_invoke := fun _ _ n => (None, S n);
     make_default := (-1)%Z;
     res_default_construct := fun n => (Some 6, S n);
     traits_is_allocated := fun r => (0 <=? r)%Z;
     default_deleter := 0;
     del_default_construct := fun n => (None, n) |}.

(** The world before anything has run. *)
Definition initial_world : world Z nat nat := World [] 0.

(** ** Properties *)

Section Properties.

Context {Res Del Exn Env : Type}.
Variable T : type_traits.
Variable U : behaviour Res Del Exn Env.
Variable Invalid : Type.
Variable res_equal : Res -> Invalid -> bool.

Ltac run :=
  cbv [destroy reset release move_assign move_assign_self move_assign_at
       move_assign_body noexcept_if reset_to reset_impl_true
       reset_impl_false swap construct construct_default
       construct_default_resource move_construct allocated get
       data_ctor data_ctor_default data_ctor_default_resource data_move_ctor
       data_assign data_swap assign_resource is_allocated set_deallocated
       get_resource get_deleter denotes_allocated unique_resource
       unique_resource_data
       bind ret throw gets modify when try_catch ctor_try at_place
       first_of second_of itself rd wr
       invoke user fst snd] in *.

Ltac norm :=
  cbv [traits_data_is_allocated traits_data_set_deallocated
       set_f_resource set_f_deleter set_m_allocated set_t_resource
       set_t_deleter f_resource f_deleter m_allocated t_resource t_deleter
       after_invoke calls env fst snd] in *.

(** *** The holders *)

Lemma construct_res_inv S (src : Res) (s s' : S) (w w' : world Res Del Env) o :
  construct_res T U src s w = (o, s', w') ->
  s' = s /\ calls w' = calls w /\
  (forall rr, o = Normal rr -> fst rr = src /\
     snd rr = (if res_nothrow_move_constructible T
               then res_moved_from U src else src)).
Proof.
  unfold construct_res. destruct (res_nothrow_move_constructible T); run.
  - intros Q; inversion Q; subst. repeat split; auto;
      inversion H; reflexivity.
  - destruct (res_copy_construct U src (env w)) as [[x|] n];
      intros Q; inversion Q; subst; cbn; repeat split; auto;
      inversion H; reflexivity.
Qed.

Lemma construct_del_inv S (src : Del) (s s' : S) (w w' : world Res Del Env) o :
  construct_del T U src s w = (o, s', w') ->
  s' = s /\ calls w' = calls w /\
  (forall dd, o = Normal dd -> fst dd = src /\
     snd dd = (if del_nothrow_move_constructible T
               then del_moved_from U src else src)).
Proof.
  unfold construct_del. destruct (del_nothrow_move_constructible T); run.
  - intros Q; inversion Q; subst. repeat split; auto;
      inversion H; reflexivity.
  - destruct (del_copy_construct U src (env w)) as [[x|] n];
      intros Q; inversion Q; subst; cbn; repeat split; auto;
      inversion H; reflexivity.
Qed.

(** A construction declared [noexcept] returns. *)
Lemma construct_res_nothrow S (src : Res) (s : S) (w : world Res Del Env) :
  noexcept_respected T U -> res_nothrow_constructible T = true ->
  exists rr w', construct_res T U src s w = (Normal rr, s, w').
Proof.
  intros NX. unfold res_nothrow_constructible, construct_res.
  destruct (res_nothrow_move_constructible T); cbn; intros H.
  - run. eauto.
  - run. pose proof (nx_res_copy_construct NX H src (env w)) as Q.
    destruct (res_copy_construct U src (env w)) as [o n]; cbn in Q; subst o.
    eauto.
Qed.

Lemma construct_del_nothrow S (src : Del) (s : S) (w : world Res Del Env) :
  noexcept_respected T U -> del_nothrow_constructible T = true ->
  exists dd w', construct_del T U src s w = (Normal dd, s, w').
Proof.
  intros NX. unfold del_nothrow_constructible, construct_del.
  destruct (del_nothrow_move_constructible T); cbn; intros H.
  - run. eauto.
  - run. pose proof (nx_del_copy_construct NX H src (env w)) as Q.
    destruct (del_copy_construct U src (env w)) as [o n]; cbn in Q; subst o.
    eauto.
Qed.

(** What the three-argument holders return, from what the construction they
    wrap returns. *)
Lemma resource_holder_3_normal S res del a (s : S) (w w1 : world Res Del Env) rr :
  construct_res T U res s w = (Normal rr, s, w1) ->
  resource_holder_3 T U res del a s w = (Normal rr, s, w1).
Proof.
  intros H. unfold resource_holder_3, ctor_try, try_catch.
  destruct (res_nothrow_constructible T); rewrite ?H; reflexivity.
Qed.

Lemma deleter_holder_3_normal S del res a (s : S) (w w1 : world Res Del Env) dd :
  construct_del T U del s w = (Normal dd, s, w1) ->
  deleter_holder_3 T U del res a s w = (Normal dd, s, w1).
Proof.
  intros H. unfold deleter_holder_3, ctor_try, try_catch.
  destruct (del_nothrow_constructible T); rewrite ?H; reflexivity.
Qed.

Lemma resource_holder_3_thrown S res del a (s : S) (w w1 : world Res Del Env) e :
  noexcept_respected T U ->
  construct_res T U res s w = (Thrown e, s, w1) ->
  exists e' w',
    resource_holder_3 T U res del a s w = (Thrown e', s, w') /\
    calls w' = calls w ++ (if a then [(del, res)] else []) /\
    w' = (if a then after_invoke U del res w1 else w1) /\
    (a = false \/ fst (del_invoke U del res (env w1)) = None -> e' = e).
Proof.
  intros NX H. unfold resource_holder_3.
  destruct (res_nothrow_constructible T) eqn:N.
  - destruct (construct_res_nothrow res s w NX N) as (rr & w' & Q).
    congruence.
  - destruct (construct_res_inv _ _ _ H) as (_ & C & _).
    unfold ctor_try, try_catch. rewrite H. destruct a; run.
    + unfold after_invoke.
      destruct (del_invoke U del res (env w1)) as [[x|] n]; cbn;
        do 2 eexists; (split; [reflexivity|]); cbn; rewrite C;
        repeat split; auto.
      intros [Q|Q]; discriminate.
    + do 2 eexists. split; [reflexivity|]. rewrite app_nil_r. auto.
Qed.

Lemma deleter_holder_3_thrown S del res a (s : S) (w w1 : world Res Del Env) e :
  noexcept_respected T U ->
  construct_del T U del s w = (Thrown e, s, w1) ->
  exists e' w',
    deleter_holder_3 T U del res a s w = (Thrown e', s, w') /\
    calls w' = calls w ++ (if a then [(del, res)] else []) /\
    w' = (if a then after_invoke U del res w1 else w1) /\
    (a = false \/ fst (del_invoke U del res (env w1)) = None -> e' = e).
Proof.
  intros NX H. unfold deleter_holder_3.
  destruct (del_nothrow_constructible T) eqn:N.
  - destruct (construct_del_nothrow del s w NX N) as (rr & w' & Q).
    congruence.
  - destruct (construct_del_inv _ _ _ H) as (_ & C & _).
    unfold ctor_try, try_catch. rewrite H. destruct a; run.
    + unfold after_invoke.
      destruct (del_invoke U del res (env w1)) as [[x|] n]; cbn;
        do 2 eexists; (split; [reflexivity|]); cbn; rewrite C;
        repeat split; auto.
      intros [Q|Q]; discriminate.
    + do 2 eexists. split; [reflexivity|]. rewrite app_nil_r. auto.
Qed.

Lemma ctor_try_normal S A (m : M Res Del Exn Env S A) h s w a s' w' :
  ctor_try m h s w = (Normal a, s', w') -> m s w = (Normal a, s', w').
Proof.
  unfold ctor_try, try_catch, bind, throw.
  destruct (m s w) as [[[x|x] s1] w1]; auto.
  destruct (h s1 w1) as [[[y|y] s2] w2]; discriminate.
Qed.

Lemma resource_holder_3_inv S res del a (s s' : S) (w w' : world Res Del Env) rr :
  resource_holder_3 T U res del a s w = (Normal rr, s', w') ->
  construct_res T U res s w = (Normal rr, s', w').
Proof.
  unfold resource_holder_3. destruct (res_nothrow_constructible T); auto.
  apply ctor_try_normal.
Qed.

Lemma deleter_holder_3_inv S del res a (s s' : S) (w w' : world Res Del Env) dd :
  deleter_holder_3 T U del res a s w = (Normal dd, s', w') ->
  construct_del T U del s w = (Normal dd, s', w').
Proof.
  unfold deleter_holder_3. destruct (del_nothrow_constructible T); auto.
  apply ctor_try_normal.
Qed.

(** *** Construction from a resource and a deleter *)

(** The storage constructor in terms of the two holders. *)
Lemma data_ctor_unfold u res del (w : world Res Del Env) :
  data_ctor T U (u:=u) res del tt w =
  match resource_holder_3 T U res del (denotes_allocated U u res) tt w with
  | (Normal rr, _, w1) =>
      match deleter_holder_3 T U del (fst rr) (denotes_allocated U u res) tt w1 with
      | (Normal dd, _, w2) =>
          (Normal (if u return unique_resource_data Res Del u
                   then TraitsData (fst rr) (fst dd)
                   else FlagData (fst rr) (fst dd) true), tt, w2)
      | (Thrown e, _, w2) => (Thrown e, tt, w2)
      end
  | (Thrown e, _, w1) => (Thrown e, tt, w1)
  end.
Proof.
  destruct u; cbv [data_ctor traits_ctor traits_ctor_3 flag_ctor bind ret
                   denotes_allocated];
    destruct (resource_holder_3 _ _ _ _ _ _ _) as [[[rr|e] []] w1]; auto;
    destruct (deleter_holder_3 _ _ _ _ _ _ _) as [[[dd|e] []] w2]; auto.
Qed.

Lemma construct_inv u res del (w w1 : world Res Del Env) (g : unique_resource Res Del u) :
  construct T U res del tt w = (Normal g, tt, w1) ->
  calls w1 = calls w /\ get g = res /\ get_deleter g = del /\
  allocated U g = denotes_allocated U u res.
Proof.
  unfold construct. rewrite data_ctor_unfold.
  destruct (resource_holder_3 _ _ _ _ _ _ _) as [[[rr|e] []] w2] eqn:R;
    [|discriminate].
  destruct (deleter_holder_3 _ _ _ _ _ _ _) as [[[dd|e] []] w3] eqn:D;
    [|discriminate].
  apply resource_holder_3_inv, construct_res_inv in R.
  apply deleter_holder_3_inv, construct_del_inv in D.
  destruct R as (_ & R1 & R2), D as (_ & D1 & D2).
  destruct (R2 _ eq_refl) as [R3 _], (D2 _ eq_refl) as [D3 _].
  intros Q; inversion Q; subst w3 g. rewrite D1, R1.
  destruct u; cbn; unfold traits_data_is_allocated; cbn; rewrite ?R3; auto.
Qed.

(** What [reset()] does to an allocated and to an unallocated guard. *)
Lemma reset_allocated u (g : unique_resource Res Del u) (w : world Res Del Env) :
  allocated U g = true ->
  reset U g w =
  match fst (del_invoke U (get_deleter g) (get_resource g) (env w)) with
  | None => (Normal tt, set_deallocated U g,
             after_invoke U (get_deleter g) (get_resource g) w)
  | Some e => (Thrown e, g, after_invoke U (get_deleter g) (get_resource g) w)
  end.
Proof.
  intros HA. unfold after_invoke.
  destruct u; run; rewrite HA;
    match goal with
    | |- context [del_invoke U ?d ?r ?n] =>
        destruct (del_invoke U d r n) as [[x|] n']
    end; reflexivity.
Qed.

Lemma reset_unallocated u (g : unique_resource Res Del u) (w : world Res Del Env) :
  allocated U g = false -> reset U g w = (Normal tt, g, w).
Proof. intros HA. destruct u; run; rewrite HA; reflexivity. Qed.

Lemma set_deallocated_unallocated u (g : unique_resource Res Del u) :
  traits_conforming U -> allocated U (set_deallocated U g) = false.
Proof.
  intros HC. destruct u; cbn; auto.
Qed.

(** C1.  A guard constructed from a resource classified as allocated and a
    deleter [del] holds that resource and that deleter, is allocated, and
    its construction has invoked nothing.  Destroying it invokes [del]
    exactly once, on that resource, whether the deleter returns or throws.
    When the destructor returns, the guard it leaves is unallocated and a
    further [reset()] invokes nothing. *)
Theorem destroy_invokes_deleter_exactly_once
    (u : bool) (res : Res) (del : Del) (w w1 : world Res Del Env)
    (g : unique_resource Res Del u) :
  traits_conforming U ->
  denotes_allocated U u res = true ->
  construct T U res del tt w = (Normal g, tt, w1) ->
  allocated U g = true /\ get g = res /\ get_deleter g = del /\
  calls w1 = calls w /\
  forall o g' w2, destroy U g w1 = (o, g', w2) ->
    calls w2 = calls w ++ [(del, res)] /\
    (o = Normal tt ->
       allocated U g' = false /\ reset U g' w2 = (Normal tt, g', w2)).
Proof.
  intros HC HD HG. apply construct_inv in HG.
  destruct HG as (C & R & D & A). rewrite HD in A.
  split; [exact A|]. split; [exact R|]. split; [exact D|].
  split; [exact C|].
  intros o g' w2 H. unfold destroy in H.
  rewrite reset_allocated in H by exact A.
  unfold get in R. rewrite R, D in H. unfold after_invoke in H.
  destruct (fst (del_invoke U del res (env w1)));
    inversion H; subst o g' w2; cbn [calls]; rewrite C;
    (split; [reflexivity|]); intros Q; [discriminate|].
  split.
  - apply set_deallocated_unallocated; assumption.
  - apply reset_unallocated, set_deallocated_unallocated; assumption.
Qed.

(** C3.  Construction of a guard from a resource [res] classified as
    allocated and a deleter [del].  If the construction of the stored
    resource throws, the constructor throws after one invocation of [del] on
    the argument [res].  If the resource is constructed and the construction
    of the stored deleter throws, the constructor throws after one invocation
    of [del] on the stored resource.  In both cases no guard is returned, and
    the exception that leaves the constructor is the one of the failed
    construction whenever the deleter returns.  Otherwise the guard is
    returned and nothing was invoked. *)
Theorem construct_failure_invokes_deleter_once
    (u : bool) (res : Res) (del : Del) (w : world Res Del Env) :
  noexcept_respected T U ->
  denotes_allocated U u res = true ->
  match construct_res T U res tt w with
  | (Thrown e, _, w1) =>
      exists e' w',
        construct T U (u:=u) res del tt w = (Thrown e', tt, w') /\
        calls w' = calls w ++ [(del, res)] /\
        (fst (del_invoke U del res (env w1)) = None -> e' = e)
  | (Normal rr, _, w1) =>
      match construct_del T U del tt w1 with
      | (Thrown e, _, w2) =>
          exists e' w',
            construct T U (u:=u) res del tt w = (Thrown e', tt, w') /\
            calls w' = calls w ++ [(del, fst rr)] /\
            (fst (del_invoke U del (fst rr) (env w2)) = None -> e' = e)
      | (Normal dd, _, w2) =>
          exists g : unique_resource Res Del u,
            construct T U res del tt w = (Normal g, tt, w2) /\
            calls w2 = calls w /\ get g = res /\ get_deleter g = del /\
            allocated U g = true
      end
  end.
Proof.
  intros NX HD. unfold construct. rewrite data_ctor_unfold, HD.
  destruct (construct_res T U res tt w) as [[[rr|e] []] w1] eqn:R.
  - erewrite resource_holder_3_normal by exact R.
    destruct (construct_res_inv _ _ _ R) as (_ & R1 & R2).
    destruct (R2 _ eq_refl) as [R3 _].
    destruct (construct_del T U del tt w1) as [[[dd|e] []] w2] eqn:D.
    + erewrite deleter_holder_3_normal by exact D.
      destruct (construct_del_inv _ _ _ D) as (_ & D1 & D2).
      destruct (D2 _ eq_refl) as [D3 _].
      eexists. split; [reflexivity|]. rewrite D1, R1.
      destruct u; cbn in *; unfold traits_data_is_allocated; cbn;
        rewrite ?R3; auto.
    + destruct (@deleter_holder_3_thrown _ del (fst rr) true tt w1 w2 e NX D)
        as (e' & w' & Q & C & _ & X).
      rewrite Q. exists e', w'. rewrite C, R1. auto.
  - destruct (@resource_holder_3_thrown _ res del true tt w w1 e NX R)
      as (e' & w' & Q & C & _ & X).
    rewrite Q. exists e', w'. auto.
Qed.

Lemma construct_normal u res del (w w1 w2 : world Res Del Env) rr dd :
  construct_res T U res tt w = (Normal rr, tt, w1) ->
  construct_del T U del tt w1 = (Normal dd, tt, w2) ->
  exists g : unique_resource Res Del u,
    construct T U res del tt w = (Normal g, tt, w2).
Proof.
  intros R D. unfold construct. rewrite data_ctor_unfold.
  erewrite resource_holder_3_normal by exact R.
  assert (F : fst rr = res)
    by (destruct (construct_res_inv _ _ _ R) as (_ & _ & Q);
        apply (Q _ eq_refl)).
  erewrite deleter_holder_3_normal by exact D.
  eexists; reflexivity.
Qed.

Lemma resource_holder_0_inv S (s s' : S) (w w' : world Res Del Env) o :
  resource_holder_0 U s w = (o, s', w') ->
  s' = s /\ calls w' = calls w /\
  forall r, o = Normal r -> r = make_default U.
Proof.
  cbv [resource_holder_0 user bind ret].
  destruct (res_default_construct U (env w)) as [[x|] v];
    intros Q; inversion Q; subst; repeat split; auto;
    intros r Q'; inversion Q'; reflexivity.
Qed.

Lemma deleter_holder_0_inv S (s s' : S) (w w' : world Res Del Env) o :
  deleter_holder_0 U s w = (o, s', w') ->
  s' = s /\ calls w' = calls w /\
  forall d, o = Normal d -> d = default_deleter U.
Proof.
  cbv [deleter_holder_0 user bind ret].
  destruct (del_default_construct U (env w)) as [[x|] v];
    intros Q; inversion Q; subst; repeat split; auto;
    intros r Q'; inversion Q'; reflexivity.
Qed.

Lemma construct_default_resource_unfold u del (w : world Res Del Env) :
  construct_default_resource T U (u:=u) del tt w =
  match resource_holder_0 U tt w with
  | (Normal r, _, w0) =>
      match construct_del T U del tt w0 with
      | (Normal dd, _, w1) =>
          (Normal (if u return unique_resource Res Del u
                   then TraitsData r (fst dd)
                   else FlagData r (fst dd) false), tt, w1)
      | (Thrown e, _, w1) => (Thrown e, tt, w1)
      end
  | (Thrown e, _, w0) => (Thrown e, tt, w0)
  end.
Proof.
  destruct u;
    cbv [construct_default_resource data_ctor_default_resource
         traits_ctor_default_resource flag_ctor_default_resource
         deleter_holder_1 bind ret];
    destruct (resource_holder_0 U tt w) as [[[r|e] []] w0]; try reflexivity;
    destruct (construct_del T U del tt w0) as [[[dd|e] []] w1]; reflexivity.
Qed.

Lemma construct_default_unfold u (w : world Res Del Env) :
  construct_default U (u:=u) tt w =
  match resource_holder_0 U tt w with
  | (Normal r, _, w0) =>
      match deleter_holder_0 U tt w0 with
      | (Normal d, _, w1) =>
          (Normal (if u return unique_resource Res Del u
                   then TraitsData r d else FlagData r d false), tt, w1)
      | (Thrown e, _, w1) => (Thrown e, tt, w1)
      end
  | (Thrown e, _, w0) => (Thrown e, tt, w0)
  end.
Proof.
  destruct u;
    cbv [construct_default data_ctor_default
         traits_ctor_default flag_ctor_default bind ret];
    destruct (resource_holder_0 U tt w) as [[[r|e] []] w0]; try reflexivity;
    destruct (deleter_holder_0 U tt w0) as [[[d|e] []] w1]; reflexivity.
Qed.

(** C8.  [make_unique_resource_checked(res, invalid, del)] decides by
    [res == invalid].  If they are equal, the resource is default
    constructed and then the deleter is stored; if both succeed, the
    function returns an unallocated guard that holds the default resource
    and stores [del], having invoked nothing, and destroying that guard
    invokes nothing; if one of them throws, the function throws that
    exception, or the program is terminated where the function is
    [noexcept], and nothing was invoked.  If they are unequal and the
    resource and the deleter can be stored, it returns an allocated guard
    that holds [res] and [del], having invoked nothing, and destroying that
    guard invokes [del] on [res] exactly once.  In either case a guard is
    returned only if storing the values did not throw. *)
Theorem make_unique_resource_checked_spec
    (res : Res) (invalid : Invalid) (del : Del) (w : world Res Del Env) :
  let make := make_unique_resource_checked T U res_equal res invalid del tt w in
  let failed e (w1 : world Res Del Env) :=
    calls w1 = calls w /\
    make = if res_nothrow_constructible T && del_nothrow_constructible T
           then Terminates w1 else Exits (Thrown e, tt, w1) in
  if res_equal res invalid then
    match resource_holder_0 U tt w with
    | (Normal r, _, w0) =>
        match construct_del T U del tt w0 with
        | (Normal dd, _, w1) =>
            exists g,
              make = Exits (Normal g, tt, w1) /\
              allocated U g = false /\ get g = make_default U /\
              get_deleter g = del /\
              calls w1 = calls w /\
              destroy U g w1 = (Normal tt, g, w1)
        | (Thrown e, _, w1) => failed e w1
        end
    | (Thrown e, _, w0) => failed e w0
    end
  else
    match construct_res T U res tt w with
    | (Normal rr, _, w1) =>
        match construct_del T U del tt w1 with
        | (Normal dd, _, w2) =>
            exists g,
              make = Exits (Normal g, tt, w2) /\
              allocated U g = true /\ get g = res /\ get_deleter g = del /\
              calls w2 = calls w /\
              forall o g' w3, destroy U g w2 = (o, g', w3) ->
                calls w3 = calls w ++ [(del, res)]
        | (Thrown e, _, w2) =>
            forall g w', make <> Exits (Normal g, tt, w')
        end
    | (Thrown e, _, w1) => forall g w', make <> Exits (Normal g, tt, w')
    end.
Proof.
  intros make failed. subst make failed.
  unfold make_unique_resource_checked, noexcept_if.
  destruct (res_equal res invalid); cbn [negb].
  - rewrite construct_default_resource_unfold.
    destruct (resource_holder_0 U tt w) as [[[r|e] []] w0] eqn:R.
    + destruct (resource_holder_0_inv _ _ R) as (_ & R1 & R2).
      destruct (construct_del T U del tt w0) as [[[dd|e] []] w1] eqn:D.
      * destruct (construct_del_inv _ _ _ D) as (_ & D1 & D2).
        destruct (D2 _ eq_refl) as [D3 _].
        eexists. split; [reflexivity|]. cbn.
        rewrite (R2 _ eq_refl).
        repeat split; auto; congruence.
      * destruct (construct_del_inv _ _ _ D) as (_ & D1 & _).
        split; [congruence|reflexivity].
    + destruct (resource_holder_0_inv _ _ R) as (_ & R1 & _).
      split; [congruence|reflexivity].
  - destruct (construct_res T U res tt w) as [[[rr|e] []] w1] eqn:R.
    + destruct (construct_del T U del tt w1) as [[[dd|e] []] w2] eqn:D.
      * destruct (@construct_normal false _ _ _ _ _ _ _ R D) as (g & G).
        exists g. rewrite G. split; [reflexivity|].
        pose proof G as G'. apply construct_inv in G'.
        destruct G' as (C & R1 & D1 & A).
        cbn in A. repeat split; auto.
        intros o g' w3 H. unfold destroy in H.
        rewrite reset_allocated in H by exact A.
        unfold get in R1. rewrite R1, D1 in H. unfold after_invoke in H.
        destruct (fst (del_invoke U del res (env w2)));
          inversion H; subst; cbn [calls]; rewrite C; reflexivity.
      * intros g w' Q.
        destruct (construct T U res del tt w) as [[[g0|x] []] w3] eqn:G;
          [|destruct (_ && _); discriminate].
        unfold construct in G.
        rewrite data_ctor_unfold in G.
        erewrite resource_holder_3_normal in G by exact R.
        destruct (deleter_holder_3 _ _ _ _ _ _ _) as [[[dd|x] []] w4] eqn:H;
          [|discriminate].
        apply deleter_holder_3_inv in H. congruence.
    + intros g w' Q.
      destruct (construct T U res del tt w) as [[[g0|x] []] w3] eqn:G;
        [|destruct (_ && _); discriminate].
      unfold construct in G.
      rewrite data_ctor_unfold in G.
      destruct (resource_holder_3 _ _ _ _ _ _ _) as [[[rr|x] []] w4] eqn:H;
        [|discriminate].
      apply resource_holder_3_inv in H. congruence.
Qed.

(** *** Move construction *)

Ltac run_move :=
  cbv [move_construct data_move_ctor flag_move_ctor flag_move_ctor_true
       flag_move_ctor_false traits_move_ctor traits_move_ctor_true
       traits_move_ctor_false resource_holder_1 deleter_holder_3
       del_nothrow_constructible construct_res construct_del
       traits_data_is_allocated traits_data_set_deallocated
       set_f_resource set_f_deleter set_m_allocated set_t_resource
       set_t_deleter f_resource f_deleter m_allocated t_resource t_deleter
       after_invoke calls env] in *;
  run; norm.

Ltac case_user :=
  match goal with
  | |- context [res_copy_construct U ?a ?b] =>
      let E := fresh "E" in
      destruct (res_copy_construct U a b) as [[?|] ?] eqn:E
  | |- context [del_copy_construct U ?a ?b] =>
      let E := fresh "E" in
      destruct (del_copy_construct U a b) as [[?|] ?] eqn:E
  | |- context [del_invoke U ?a ?b ?c] =>
      let E := fresh "E" in
      destruct (del_invoke U a b c) as [[?|] ?] eqn:E
  end; cbn [fst snd calls env] in *.

(** C4.  Move construction when the construction of the stored deleter may
    throw.  The resource is transferred first; if that throws, the source is
    left as it was.  If the deleter construction then throws and the
    resource was moved, the source ends unallocated and its deleter has been
    invoked on the resource exactly once if the source was allocated, not at
    all otherwise; if the resource was copied, the source is left as it was,
    resource and allocation state included, and nothing has been invoked.
    In each of these cases no guard is returned. *)
Theorem move_construct_deleter_failure
    (u : bool) (that : unique_resource Res Del u) (w : world Res Del Env) :
  traits_conforming U ->
  del_nothrow_constructible T = false ->
  match construct_res T U (get_resource that) that w with
  | (Thrown e, _, w1) =>
      move_construct T U that w = (Thrown e, that, w1) /\ calls w1 = calls w
  | (Normal rr, _, w1) =>
      fst rr = get_resource that /\
      match construct_del T U (get_deleter that) that w1 with
      | (Normal dd, _, w2) =>
          exists h that',
            move_construct T U that w = (Normal h, that', w2) /\
            calls w2 = calls w
      | (Thrown e, _, w2) =>
          if res_nothrow_move_constructible T then
            exists e' that' w',
              move_construct T U that w = (Thrown e', that', w') /\
              allocated U that' = false /\
              get_deleter that' = get_deleter that /\
              calls w' = calls w ++
                (if allocated U that
                 then [(get_deleter that, get_resource that)] else []) /\
              (allocated U that = false \/
               fst (del_invoke U (get_deleter that) (get_resource that) (env w2))
                 = None -> e' = e)
          else
            move_construct T U that w = (Thrown e, that, w2) /\
            calls w2 = calls w
      end
  end.
Proof.
  intros HC HN. unfold del_nothrow_constructible in HN.
  apply orb_false_elim in HN. destruct HN as [HN1 HN2].
  destruct u; destruct that; run_move; rewrite HN1; cbn [orb]; rewrite ?HN2;
    destruct (res_nothrow_move_constructible T) eqn:RM; cbn [andb];
    repeat case_user; cbn [andb].
  all: try (split; reflexivity).
  all: try (split; [reflexivity|]).
  all: try (do 2 eexists; split; reflexivity).
  all: try match goal with
           | |- context [traits_is_allocated U ?r] =>
               destruct (traits_is_allocated U r) eqn:A
           | |- context [if ?a then _ else _] => destruct a eqn:A
           end; cbn [andb]; repeat case_user.
  all: try (do 3 eexists; split; [reflexivity|]; cbn;
            rewrite ?HC, ?app_nil_r; repeat split; auto;
            intros [Q|Q]; congruence).
Qed.

(** C2, amended.  When [h] is move-constructed from [g], [h] holds the
    resource and the deleter of [g] and is allocated exactly when [g] was;
    [g] is left unallocated; so exactly one of the two is allocated when [g]
    was allocated, and none otherwise.  The construction invokes nothing,
    destroying the source invokes nothing, and destroying [h] invokes the
    deleter once if [g] was allocated and not at all otherwise: at most once
    in total. *)
Theorem move_construct_transfers_ownership
    (u : bool) (g h g' : unique_resource Res Del u) (w w' : world Res Del Env) :
  traits_conforming U ->
  move_construct T U g w = (Normal h, g', w') ->
  allocated U h = allocated U g /\
  allocated U g' = false /\
  (exactly_one_allocated U g' h <-> allocated U g = true) /\
  get h = get g /\ get_deleter h = get_deleter g /\
  calls w' = calls w /\
  (forall w0, destroy U g' w0 = (Normal tt, g', w0)) /\
  (forall o h1 w1, destroy U h w' = (o, h1, w1) ->
     calls w1 = calls w ++
       (if allocated U g then [(get_deleter g, get g)] else []) /\
     length (calls w1) <= S (length (calls w))).
Proof.
  intros HC HM.
  assert (K : allocated U h = allocated U g /\ allocated U g' = false /\
              get h = get g /\ get_deleter h = get_deleter g /\
              calls w' = calls w).
  { revert HM. destruct u; destruct g; run_move;
      destruct (del_nothrow_move_constructible T); cbn [orb];
      try destruct (del_nothrow_copy_constructible T);
      destruct (res_nothrow_move_constructible T); cbn [andb];
      repeat case_user;
      try match goal with
          | |- context [if ?a then _ else _] => destruct a eqn:A
          end; cbn [andb]; repeat case_user;
      intros Q; inversion Q; subst; cbn; rewrite ?HC; auto. }
  destruct K as (K1 & K2 & K3 & K4 & K5).
  split; [exact K1|]. split; [exact K2|].
  split.
  { unfold exactly_one_allocated. rewrite K2, K1. cbn. reflexivity. }
  split; [exact K3|]. split; [exact K4|]. split; [exact K5|].
  split.
  { intros w0. unfold destroy. apply reset_unallocated. exact K2. }
  intros o h1 w1 D. unfold destroy in D. rewrite <- K1, <- K3, <- K4, <- K5.
  destruct (allocated U h) eqn:A.
  - rewrite reset_allocated in D by exact A. unfold after_invoke, get in *.
    destruct (fst (del_invoke U _ _ (env w'))); inversion D; subst; cbn;
      rewrite length_app; cbn; split; auto; lia.
  - rewrite reset_unallocated in D by exact A. inversion D; subst.
    rewrite app_nil_r. split; auto.
Qed.

(** *** reset with a new resource *)

Lemma reset_inv u (g g1 : unique_resource Res Del u) (w w1 : world Res Del Env) o :
  reset U g w = (o, g1, w1) ->
  get_deleter g1 = get_deleter g /\
  calls w1 = calls w ++
    (if allocated U g then [(get_deleter g, get g)] else []) /\
  (forall e, o = Thrown e -> g1 = g).
Proof.
  destruct (allocated U g) eqn:A.
  - rewrite reset_allocated by exact A. unfold after_invoke, get.
    destruct (fst (del_invoke U _ _ (env w))); intros Q; inversion Q; subst;
      cbn; repeat split; auto; try discriminate;
      destruct u; reflexivity.
  - rewrite reset_unallocated by exact A. intros Q; inversion Q; subst.
    rewrite app_nil_r. repeat split; auto; discriminate.
Qed.

Lemma reset_nothrow u (g : unique_resource Res Del u) (w : world Res Del Env) :
  noexcept_respected T U -> del_nothrow_invocable T = true ->
  exists g1 w1, reset U g w = (Normal tt, g1, w1).
Proof.
  intros NX DI. destruct (allocated U g) eqn:A.
  - rewrite reset_allocated by exact A.
    rewrite (nx_del_invoke NX DI). eauto.
  - rewrite reset_unallocated by exact A. eauto.
Qed.

Lemma assign_resource_inv u (g1 g2 : unique_resource Res Del u) newv
    (w1 w2 : world Res Del Env) o :
  assign_resource T U newv g1 w1 = (o, g2, w2) ->
  get_deleter g2 = get_deleter g1 /\
  calls w2 = calls w1 /\
  (o = Normal tt ->
     get g2 = newv /\ allocated U g2 = denotes_allocated U u newv).
Proof.
  destruct u; destruct g1;
    cbv [assign_resource traits_assign_resource flag_assign_resource
         assign_res bind ret modify];
    destruct (res_nothrow_move_assignable T);
    try (intros Q; inversion Q; subst; cbn; repeat split; auto; fail);
    cbn [t_resource f_resource];
    match goal with
    | |- context [res_copy_assign U ?a ?b ?c] =>
        destruct (res_copy_assign U a b c) as [[[x r]|] n]
    end;
    intros Q; inversion Q; subst; cbn; repeat split; auto; discriminate.
Qed.

Lemma assign_resource_nothrow u (g1 : unique_resource Res Del u) newv
    (w1 : world Res Del Env) :
  noexcept_respected T U -> res_nothrow_assignable T = true ->
  exists g2 w2, assign_resource T U newv g1 w1 = (Normal tt, g2, w2).
Proof.
  intros NX. unfold res_nothrow_assignable.
  destruct u; destruct g1;
    cbv [assign_resource traits_assign_resource flag_assign_resource
         assign_res bind ret modify];
    destruct (res_nothrow_move_assignable T); cbn [orb]; intros RC;
    try (do 2 eexists; reflexivity);
    cbn [t_resource f_resource];
    match goal with
    | |- context [res_copy_assign U ?a ?b ?c] =>
        pose proof (nx_res_copy_assign NX RC a b c) as Q;
        destruct (res_copy_assign U a b c) as [o n]
    end; cbn in Q; subst o; do 2 eexists; reflexivity.
Qed.


(** *** swap *)

Ltac run_swap :=
  cbv [swap data_swap flag_swap flag_swap_impl_tt flag_swap_impl_tf
       flag_swap_impl_ff flag_swap_resources flag_swap_deleters
       flag_swap_flags traits_swap traits_swap_impl_tt traits_swap_impl_tf
       traits_swap_impl_ff traits_swap_resources traits_swap_deleters
       swap_res swap_del] in *;
  run; norm.

Ltac case_swap :=
  match goal with
  | |- context [res_swap U ?a ?b ?c] =>
      let E := fresh "E" in
      destruct (res_swap U a b c) as [[[? [? ?]]|] ?] eqn:E
  | |- context [del_swap U ?a ?b ?c] =>
      let E := fresh "E" in
      destruct (del_swap U a b c) as [[[? [? ?]]|] ?] eqn:E
  end.

Ltac swap_noexcept_contradiction NX :=
  match goal with
  | H : res_nothrow_swappable T = true,
    E : res_swap U ?a ?b ?c = (Some _, _) |- _ =>
      pose proof (nx_res_swap NX H a b c) as Q; rewrite E in Q; discriminate Q
  | H : del_nothrow_swappable T = true,
    E : del_swap U ?a ?b ?c = (Some _, _) |- _ =>
      pose proof (nx_del_swap NX H a b c) as Q; rewrite E in Q; discriminate Q
  end.

(** C6, amended.  If [swap] of two guards exits with an exception, no
    deleter has been invoked, the part that was swapped first (the resources
    if their swap is [noexcept], the deleters otherwise) is back at its
    value before the call in both guards, and the flags have not been
    exchanged; the other part is in the state in which its own failed swap
    left it.  So both guards are exactly as before the call whenever the swap
    that throws leaves its operands unchanged. *)
Theorem swap_failure_rolls_back
    (u : bool) (g h : unique_resource Res Del u) (w w' : world Res Del Env)
    (s' : unique_resource Res Del u * unique_resource Res Del u) (e : Exn) :
  noexcept_respected T U ->
  res_nothrow_swappable T || del_nothrow_swappable T = true ->
  swap T U (g, h) w = (Thrown e, s', w') ->
  calls w' = calls w /\
  (if res_nothrow_swappable T
   then get (fst s') = get g /\ get (snd s') = get h /\
        exists n n',
          del_swap U (get_deleter g) (get_deleter h) n =
          (Some (e, (get_deleter (fst s'), get_deleter (snd s'))), n')
   else get_deleter (fst s') = get_deleter g /\
        get_deleter (snd s') = get_deleter h /\
        exists n n',
          res_swap U (get g) (get h) n =
          (Some (e, (get (fst s'), get (snd s'))), n')) /\
  (u = false \/ res_nothrow_swappable T = true ->
     allocated U (fst s') = allocated U g /\
     allocated U (snd s') = allocated U h) /\
  (swap_strong_guarantee U -> s' = (g, h)).
Proof.
  intros NX HR. revert s'.
  destruct u; destruct g, h; intros s'; run_swap;
    destruct (res_nothrow_swappable T) eqn:RS; cbn [andb orb] in *;
    try destruct (del_nothrow_swappable T) eqn:DS; try discriminate HR;
    repeat case_swap; try swap_noexcept_contradiction NX;
    intros Q; inversion Q; subst; cbn;
    (split; [reflexivity|]);
    (split; [repeat split; auto; do 2 eexists; eassumption|]);
    (split; [intros [X|X]; try discriminate X; auto|]);
    intros [SR SD];
    match goal with
    | E : del_swap U _ _ _ = (Some _, _) |- _ =>
        apply SD in E; destruct E; subst; reflexivity
    | E : res_swap U _ _ _ = (Some _, _) |- _ =>
        apply SR in E; destruct E; subst; reflexivity
    end.
Qed.

(** C9.  [release()] marks the guard unallocated and invokes no deleter;
    destroying the guard afterwards returns normally and invokes the deleter
    zero times: the world, and with it the list of invocations, is the one
    before the call. *)
Theorem release_then_destroy_invokes_nothing
    (u : bool) (g : unique_resource Res Del u) (w : world Res Del Env) :
  traits_conforming U ->
  release U g w = (Normal tt, set_deallocated U g, w) /\
  allocated U (set_deallocated U g) = false /\
  destroy U (set_deallocated U g) w = (Normal tt, set_deallocated U g, w).
Proof.
  intros HC. destruct u; run; cbn.
  - unfold traits_data_is_allocated, traits_data_set_deallocated; cbn.
    rewrite HC. auto.
  - auto.
Qed.


(** ** Further properties of the guard *)

(** *** Move construction, every outcome *)

Ltac construct_noexcept_contradiction NX :=
  match goal with
  | H : del_nothrow_copy_constructible T = true,
    E : del_copy_construct U ?a ?b = (Some _, _) |- _ =>
      pose proof (nx_del_copy_construct NX H a b) as Q; rewrite E in Q;
      discriminate Q
  | H : res_nothrow_copy_constructible T = true,
    E : res_copy_construct U ?a ?b = (Some _, _) |- _ =>
      pose proof (nx_res_copy_construct NX H a b) as Q; rewrite E in Q;
      discriminate Q
  end.

Lemma move_construct_cases u (that that' : unique_resource Res Del u)
    (w w' : world Res Del Env) o :
  noexcept_respected T U ->
  move_construct T U that w = (o, that', w') ->
  (exists h, o = Normal h /\
     allocated U h = allocated U that /\
     (traits_conforming U -> allocated U that' = false) /\
     get h = get that /\ get_deleter h = get_deleter that /\
     calls w' = calls w) \/
  (exists e, o = Thrown e /\ that' = that /\ calls w' = calls w) \/
  (exists e, o = Thrown e /\
     del_nothrow_constructible T = false /\
     res_nothrow_move_constructible T = true /\
     (traits_conforming U -> allocated U that' = false) /\
     calls w' = calls w ++
       (if allocated U that then [(get_deleter that, get that)] else [])).
Proof.
  intros NX. revert that'.
  destruct u; destruct that; intros that'; run_move;
    destruct (del_nothrow_move_constructible T) eqn:DM; cbn [orb];
    try destruct (del_nothrow_copy_constructible T) eqn:DC;
    destruct (res_nothrow_move_constructible T) eqn:RM; cbn [andb];
    repeat case_user;
    try match goal with
        | |- context [if ?a then _ else _] => destruct a eqn:A
        end; cbn [andb]; repeat case_user;
    try construct_noexcept_contradiction NX;
    intros Q; inversion Q; subst; cbn;
    first [ left; eexists; repeat split; auto; fail
          | right; left; eexists; repeat split; auto; fail
          | right; right; eexists; rewrite ?app_nil_r;
            repeat split; auto; fail ].
Qed.

(** X1.  Move construction when the stored deleter is constructed without
    throwing (the [std::true_type] constructors): the only thing that can
    throw is the copy of the resource, and then the source guard is exactly
    as before and no deleter has been invoked. *)
Theorem move_construct_nothrow_deleter_failure
    (u : bool) (that that' : unique_resource Res Del u)
    (w w' : world Res Del Env) (e : Exn) :
  noexcept_respected T U ->
  del_nothrow_constructible T = true ->
  move_construct T U that w = (Thrown e, that', w') ->
  that' = that /\ calls w' = calls w /\
  res_nothrow_move_constructible T = false.
Proof.
  intros NX DN H.
  assert (RM : res_nothrow_move_constructible T = false).
  { destruct (res_nothrow_move_constructible T) eqn:RM; [|reflexivity].
    exfalso. revert H. unfold del_nothrow_constructible in DN.
    destruct u; destruct that; run_move; rewrite RM;
      destruct (del_nothrow_move_constructible T) eqn:DM; cbn [orb] in *;
      rewrite ?DN; repeat case_user; try construct_noexcept_contradiction NX;
      discriminate. }
  apply move_construct_cases in H; [|exact NX].
  destruct H as [(h & Q & _)|[(x & _ & Q1 & Q2)|(x & _ & Q & _)]].
  - discriminate Q.
  - auto.
  - congruence.
Qed.

(** X2.  Move construction neither loses nor duplicates the obligation to
    clean up.  Whatever the outcome, the number of deleter invocations made
    so far plus the number of allocated guards among the source and the new
    guard (if one was produced) is what it was before the call. *)
Theorem move_construct_conserves_obligation
    (u : bool) (that that' : unique_resource Res Del u)
    (w w' : world Res Del Env) (o : outcome Exn (unique_resource Res Del u)) :
  noexcept_respected T U ->
  traits_conforming U ->
  move_construct T U that w = (o, that', w') ->
  length (calls w') + Nat.b2n (allocated U that') +
    match o with
    | Normal h => Nat.b2n (allocated U h)
    | Thrown _ => 0
    end
  = length (calls w) + Nat.b2n (allocated U that).
Proof.
  intros NX HC H. apply move_construct_cases in H; [|exact NX].
  destruct H as [(h & -> & A1 & A2 & _ & _ & C)
                |[(x & -> & -> & C)|(x & -> & _ & _ & A & C)]].
  - rewrite C, A1, (A2 HC). cbn. lia.
  - rewrite C. lia.
  - rewrite C, (A HC), length_app.
    destruct (allocated U that); cbn; lia.
Qed.

(** *** Construction of unallocated guards *)

Lemma unallocated_guard_facts u (r : Res) (d : Del) (w : world Res Del Env) :
  traits_conforming U -> r = make_default U ->
  let g : unique_resource Res Del u :=
    if u return unique_resource Res Del u
    then TraitsData r d else FlagData r d false in
  allocated U g = false /\ get g = make_default U /\ get_deleter g = d /\
  destroy U g w = (Normal tt, g, w).
Proof.
  intros HC -> g. subst g.
  destruct u; run; cbn; unfold traits_data_is_allocated; cbn;
    rewrite ?HC; repeat split; auto.
Qed.

(** X3.  The default constructor and [unique_resource(default_resource, del)]
    default construct the resource and then construct the deleter, and
    either may throw.  Neither constructor invokes a deleter, whether it
    returns or throws.  The guard one of them returns holds the default
    resource and the deleter ([del], or the default deleter), is
    unallocated, and destroying it invokes nothing.  If the default
    construction of the resource throws, both constructors throw that
    exception; if it and the default construction of the deleter return,
    the default constructor returns a guard. *)
Theorem default_resource_construction_unallocated
    (u : bool) (del : Del) (w w' : world Res Del Env)
    (o : outcome Exn (unique_resource Res Del u)) :
  traits_conforming U ->
  construct_default_resource T U del tt w = (o, tt, w') \/
  (del = default_deleter U /\ construct_default U tt w = (o, tt, w')) ->
  let w0 := World (calls w) (snd (res_default_construct U (env w))) in
  calls w' = calls w /\
  (forall g, o = Normal g ->
     allocated U g = false /\ get g = make_default U /\
     get_deleter g = del /\
     destroy U g w' = (Normal tt, g, w')) /\
  (forall e, fst (res_default_construct U (env w)) = Some e ->
     o = Thrown e /\ w' = w0) /\
  (fst (res_default_construct U (env w)) = None ->
   fst (del_default_construct U (env w0)) = None ->
   exists g0 : unique_resource Res Del u,
     construct_default U tt w =
     (Normal g0, tt,
      World (calls w) (snd (del_default_construct U (env w0))))).
Proof.
  intros HC H w0. subst w0.
  assert (P : calls w' = calls w /\
    (forall g, o = Normal g ->
       allocated U g = false /\ get g = make_default U /\
       get_deleter g = del /\
       destroy U g w' = (Normal tt, g, w')) /\
    (forall e, fst (res_default_construct U (env w)) = Some e ->
       o = Thrown e /\
       w' = World (calls w) (snd (res_default_construct U (env w))))).
  { destruct H as [H|[-> H]].
    - rewrite construct_default_resource_unfold in H.
      destruct (resource_holder_0 U tt w) as [[[r|e] []] w0] eqn:R;
        destruct (resource_holder_0_inv _ _ R) as (_ & R1 & R2).
      + destruct (construct_del T U del tt w0) as [[[dd|e] []] w1] eqn:D;
          inversion H; subst o w1; clear H;
          destruct (construct_del_inv _ _ _ D) as (_ & D1 & D2);
          (split; [congruence|]); split.
        * intros g Q. inversion Q; subst g.
          destruct (D2 _ eq_refl) as [-> _].
          apply unallocated_guard_facts; auto.
        * intros e E. revert R. cbv [resource_holder_0 user bind ret].
          destruct (res_default_construct U (env w)) as [[x|] v];
            cbn in E; discriminate.
        * intros g Q; discriminate Q.
        * intros e' E. revert R. cbv [resource_holder_0 user bind ret].
          destruct (res_default_construct U (env w)) as [[x|] v];
            cbn in E; discriminate.
      + inversion H; subst o w0; clear H.
        split; [exact R1|]. split; [intros g Q; discriminate Q|].
        intros e' E. revert R. cbv [resource_holder_0 user bind ret].
        destruct (res_default_construct U (env w)) as [[x|] v];
          cbn in E |- *; intros Q; inversion Q; subst.
        split; congruence.
    - rewrite construct_default_unfold in H.
      destruct (resource_holder_0 U tt w) as [[[r|e] []] w0] eqn:R;
        destruct (resource_holder_0_inv _ _ R) as (_ & R1 & R2).
      + destruct (deleter_holder_0 U tt w0) as [[[d|e] []] w1] eqn:D;
          inversion H; subst o w1; clear H;
          destruct (deleter_holder_0_inv _ _ D) as (_ & D1 & D2);
          (split; [congruence|]); split.
        * intros g Q. inversion Q; subst g.
          rewrite (D2 _ eq_refl).
          apply unallocated_guard_facts; auto.
        * intros e E. revert R. cbv [resource_holder_0 user bind ret].
          destruct (res_default_construct U (env w)) as [[x|] v];
            cbn in E; discriminate.
        * intros g Q; discriminate Q.
        * intros e' E. revert R. cbv [resource_holder_0 user bind ret].
          destruct (res_default_construct U (env w)) as [[x|] v];
            cbn in E; discriminate.
      + inversion H; subst o w0; clear H.
        split; [exact R1|]. split; [intros g Q; discriminate Q|].
        intros e' E. revert R. cbv [resource_holder_0 user bind ret].
        destruct (res_default_construct U (env w)) as [[x|] v];
          cbn in E |- *; intros Q; inversion Q; subst.
        split; congruence. }
  destruct P as (P1 & P2 & P3).
  repeat (split; [assumption|]).
  intros ER ED. rewrite construct_default_unfold.
  cbv [resource_holder_0 deleter_holder_0 user bind ret].
  destruct (res_default_construct U (env w)) as [[x|] v];
    cbn in ER, ED |- *; [discriminate|].
  destruct (del_default_construct U v) as [[x|] v'];
    cbn in ED |- *; [discriminate|].
  eexists; reflexivity.
Qed.





(** *** reset *)

(** X5.  [reset()] is idempotent: after a [reset()] that returned, the guard
    is unallocated and a second [reset()] returns without invoking the
    deleter and without changing the guard, so the two calls invoke the
    deleter at most once. *)
Theorem reset_idempotent
    (u : bool) (g g1 : unique_resource Res Del u)
    (w w1 : world Res Del Env) :
  traits_conforming U ->
  reset U g w = (Normal tt, g1, w1) ->
  allocated U g1 = false /\
  reset U g1 w1 = (Normal tt, g1, w1) /\
  calls w1 = calls w ++
    (if allocated U g then [(get_deleter g, get g)] else []).
Proof.
  intros HC H.
  assert (A1 : allocated U g1 = false).
  { destruct (allocated U g) eqn:A.
    - rewrite reset_allocated in H by exact A.
      destruct (fst (del_invoke U _ _ (env w))); inversion H.
      apply set_deallocated_unallocated. exact HC.
    - rewrite reset_unallocated in H by exact A. inversion H; subst. exact A. }
  split; [exact A1|]. split; [apply reset_unallocated; exact A1|].
  apply reset_inv in H. apply H.
Qed.

(** *** swap, when it returns *)

Lemma swap_normal_inv u (g h : unique_resource Res Del u)
    (w w' : world Res Del Env) s' :
  swap T U (g, h) w = (Normal tt, s', w') ->
  s' = (h, g) /\ calls w' = calls w.
Proof.
  revert s'. destruct u; destruct g, h; intros s'; run_swap;
    destruct (res_nothrow_swappable T); cbn [andb];
    try destruct (del_nothrow_swappable T);
    repeat case_swap;
    intros Q; inversion Q; subst; split; reflexivity.
Qed.

Lemma swap_nothrow u (g h : unique_resource Res Del u)
    (w : world Res Del Env) :
  noexcept_respected T U ->
  res_nothrow_swappable T && del_nothrow_swappable T = true ->
  exists s' w', swap T U (g, h) w = (Normal tt, s', w').
Proof.
  intros NX B. apply andb_prop in B. destruct B as [RS DS].
  destruct u; destruct g, h; run_swap; rewrite RS, DS; cbn [andb];
    repeat case_swap; try swap_noexcept_contradiction NX;
    do 2 eexists; reflexivity.
Qed.

(** X6.  A [swap] that returns has exchanged the two guards completely
    (resource, deleter and allocation state) and has invoked no deleter.
    When both the resources and the deleters are nothrow swappable, the
    condition of the [noexcept] specification of the storage's [swap], it
    always returns. *)
Theorem swap_exchanges_guards_completely
    (u : bool) (g h : unique_resource Res Del u) (w : world Res Del Env) :
  noexcept_respected T U ->
  (forall s' w', swap T U (g, h) w = (Normal tt, s', w') ->
     s' = (h, g) /\ calls w' = calls w) /\
  (res_nothrow_swappable T && del_nothrow_swappable T = true ->
   exists w', swap T U (g, h) w = (Normal tt, (h, g), w') /\
              calls w' = calls w).
Proof.
  intros NX. split.
  - intros s' w'. apply swap_normal_inv.
  - intros B. destruct (@swap_nothrow u g h w NX B) as (s' & w' & Q).
    pose proof Q as Q'. apply swap_normal_inv in Q'. destruct Q' as [-> C].
    exists w'. split; assumption.
Qed.

(** X7.  Swapping two guards twice gives back the original pair, and the
    two swaps invoke no deleter. *)
Theorem swap_twice_restores
    (u : bool) (g h : unique_resource Res Del u)
    (w w1 w2 : world Res Del Env) s1 s2 :
  swap T U (g, h) w = (Normal tt, s1, w1) ->
  swap T U s1 w1 = (Normal tt, s2, w2) ->
  s2 = (g, h) /\ calls w2 = calls w.
Proof.
  intros H1 H2. apply swap_normal_inv in H1. destruct H1 as [-> C1].
  apply swap_normal_inv in H2. destruct H2 as [-> C2].
  split; [reflexivity|congruence].
Qed.

(** X8.  After a [swap] of an allocated guard [g] with an unallocated guard
    [h], destroying both invokes exactly the deleter that [g] held, on the
    resource that [g] held, once: the obligation has moved to the other
    guard together with its deleter. *)
Theorem swap_then_destroy_both
    (u : bool) (g h g' h' g2 h2 : unique_resource Res Del u)
    (w w1 w2 w3 : world Res Del Env) o1 o2 :
  allocated U g = true ->
  allocated U h = false ->
  swap T U (g, h) w = (Normal tt, (g', h'), w1) ->
  destroy U g' w1 = (o1, g2, w2) ->
  destroy U h' w2 = (o2, h2, w3) ->
  o1 = Normal tt /\
  calls w3 = calls w ++ [(get_deleter g, get g)].
Proof.
  intros A B H D1 D2. apply swap_normal_inv in H. destruct H as [Q C].
  inversion Q; subst g' h'. unfold destroy in *.
  rewrite reset_unallocated in D1 by exact B. inversion D1; subst o1 g2 w2.
  rewrite reset_allocated in D2 by exact A. unfold after_invoke, get in *.
  split; [reflexivity|].
  destruct (fst (del_invoke U _ _ (env w1))); inversion D2; subst;
    cbn; rewrite C; reflexivity.
Qed.

(** *** Move assignment *)

Ltac run_assign :=
  cbv [data_assign flag_assign flag_assign_true flag_assign_false
       flag_assign_res_from_that flag_assign_del_from_that flag_move_flag
       traits_assign traits_assign_true traits_assign_false
       traits_assign_res_from_that traits_assign_del_from_that
       assign_res assign_del res_nothrow_assignable del_nothrow_assignable]
    in *;
  run; norm.

Ltac case_copy_assign :=
  match goal with
  | |- context [res_copy_assign U ?a ?b ?c] =>
      let E := fresh "E" in
      destruct (res_copy_assign U a b c) as [[[? ?]|] ?] eqn:E
  | |- context [del_copy_assign U ?a ?b ?c] =>
      let E := fresh "E" in
      destruct (del_copy_assign U a b c) as [[[? ?]|] ?] eqn:E
  end.

Ltac assign_noexcept_contradiction NX :=
  match goal with
  | H : res_nothrow_copy_assignable T = true,
    E : res_copy_assign U ?a ?b ?c = (Some _, _) |- _ =>
      pose proof (nx_res_copy_assign NX H a b c) as Q; rewrite E in Q;
      discriminate Q
  | H : del_nothrow_copy_assignable T = true,
    E : del_copy_assign U ?a ?b ?c = (Some _, _) |- _ =>
      pose proof (nx_del_copy_assign NX H a b c) as Q; rewrite E in Q;
      discriminate Q
  end.

(** A function with a [noexcept] specification. *)
Lemma noexcept_if_exits S A b (m : M Res Del Exn Env S A) s w r :
  noexcept_if b m s w = Exits r -> m s w = r.
Proof.
  unfold noexcept_if. destruct (m s w) as [[[a|e] s'] w'].
  - intros Q; inversion Q; reflexivity.
  - destruct b; intros Q; inversion Q; reflexivity.
Qed.

Lemma noexcept_if_exits_thrown S A b (m : M Res Del Exn Env S A) s w e s' w' :
  noexcept_if b m s w = Exits (Thrown e, s', w') -> b = false.
Proof.
  unfold noexcept_if. destruct (m s w) as [[[a|x] s1] w1].
  - intros Q; inversion Q.
  - destruct b; intros Q; inversion Q; reflexivity.
Qed.

Lemma noexcept_if_terminates S A b (m : M Res Del Exn Env S A) s w w' :
  noexcept_if b m s w = Terminates w' ->
  b = true /\ exists e s', m s w = (Thrown e, s', w').
Proof.
  unfold noexcept_if. destruct (m s w) as [[[a|x] s1] w1].
  - intros Q; inversion Q.
  - destruct b; intros Q; inversion Q; subst. eauto.
Qed.

Lemma noexcept_if_normal S A b (m : M Res Del Exn Env S A) s w a s' w' :
  m s w = (Normal a, s', w') ->
  noexcept_if b m s w = Exits (Normal a, s', w').
Proof. unfold noexcept_if. intros ->. reflexivity. Qed.

Lemma noexcept_if_thrown S A b (m : M Res Del Exn Env S A) s w e s' w' :
  m s w = (Thrown e, s', w') ->
  noexcept_if b m s w =
  if b then Terminates w' else Exits (Thrown e, s', w').
Proof. unfold noexcept_if. intros ->. reflexivity. Qed.

(** The assignment of the storage, for two distinct objects. *)
Lemma data_assign_inv u (g that : unique_resource Res Del u)
    (w w' : world Res Del Env) o s' :
  data_assign T U first_of second_of (g, that) w = (o, s', w') ->
  calls w' = calls w /\
  match o with
  | Normal _ =>
      get (fst s') = get that /\ get_deleter (fst s') = get_deleter that /\
      allocated U (fst s') = allocated U that /\
      (traits_conforming U -> allocated U (snd s') = false)
  | Thrown _ =>
      snd s' = that /\
      (u = false -> allocated U (fst s') = allocated U g) /\
      (del_nothrow_move_assignable T = true ->
       get_deleter (fst s') = get_deleter g)
  end.
Proof.
  revert s'. destruct u; destruct g, that; intros s'; run_assign;
    destruct (del_nothrow_move_assignable T);
    destruct (res_nothrow_move_assignable T);
    repeat case_copy_assign;
    intros Q; inversion Q; subst; cbn;
    repeat split; auto; try discriminate.
Qed.

(** The assignment of the storage to itself: the flag, or the resource of
    the traits storage, is that of a moved-from object afterwards. *)
Lemma data_assign_self_inv u (g g' : unique_resource Res Del u)
    (w w' : world Res Del Env) o :
  data_assign T U itself itself g w = (o, g', w') ->
  calls w' = calls w /\
  match o with
  | Normal _ => traits_conforming U -> allocated U g' = false
  | Thrown _ => u = false -> allocated U g' = allocated U g
  end.
Proof.
  revert g'. destruct u; destruct g; intros g'; run_assign;
    destruct (del_nothrow_move_assignable T);
    destruct (res_nothrow_move_assignable T);
    repeat case_copy_assign;
    intros Q; inversion Q; subst; cbn;
    repeat split; auto; try discriminate.
Qed.

Lemma data_assign_nothrow u (g that : unique_resource Res Del u)
    (w : world Res Del Env) :
  noexcept_respected T U ->
  res_nothrow_assignable T = true -> del_nothrow_assignable T = true ->
  exists s' w',
    data_assign T U first_of second_of (g, that) w = (Normal tt, s', w').
Proof.
  intros NX HR HD. unfold res_nothrow_assignable, del_nothrow_assignable in *.
  destruct u; destruct g, that; run_assign;
    destruct (del_nothrow_move_assignable T);
    destruct (res_nothrow_move_assignable T); cbn [orb] in *;
    repeat case_copy_assign; try assign_noexcept_contradiction NX;
    do 2 eexists; reflexivity.
Qed.

Lemma data_assign_self_nothrow u (g : unique_resource Res Del u)
    (w : world Res Del Env) :
  noexcept_respected T U ->
  res_nothrow_assignable T = true -> del_nothrow_assignable T = true ->
  exists g' w', data_assign T U itself itself g w = (Normal tt, g', w').
Proof.
  intros NX HR HD. unfold res_nothrow_assignable, del_nothrow_assignable in *.
  destruct u; destruct g; run_assign;
    destruct (del_nothrow_move_assignable T);
    destruct (res_nothrow_move_assignable T); cbn [orb] in *;
    repeat case_copy_assign; try assign_noexcept_contradiction NX;
    do 2 eexists; reflexivity.
Qed.

(** The body of [operator=] in terms of [reset()] and the assignment of the
    storage. *)
Lemma move_assign_body_unfold u (g that : unique_resource Res Del u)
    (w : world Res Del Env) :
  move_assign_body T U first_of second_of (g, that) w =
  match reset U g w with
  | (Normal _, g1, w1) => data_assign T U first_of second_of (g1, that) w1
  | (Thrown e, g1, w1) => (Thrown e, (g1, that), w1)
  end.
Proof.
  unfold move_assign_body, bind, at_place, first_of. cbn [rd wr fst snd].
  destruct (reset U g w) as [[[[]|e] g1] w1]; reflexivity.
Qed.

Lemma move_assign_body_self_unfold u (g : unique_resource Res Del u)
    (w : world Res Del Env) :
  move_assign_body T U itself itself g w =
  match reset U g w with
  | (Normal _, g1, w1) => data_assign T U itself itself g1 w1
  | (Thrown e, g1, w1) => (Thrown e, g1, w1)
  end.
Proof.
  unfold move_assign_body, bind, at_place, itself. cbn [rd wr].
  destruct (reset U g w) as [[[[]|e] g1] w1]; reflexivity.
Qed.

(** What [reset()] leaves when it returns. *)
Lemma reset_normal_unallocated u (g g1 : unique_resource Res Del u)
    (w w1 : world Res Del Env) :
  reset U g w = (Normal tt, g1, w1) ->
  (u = false \/ traits_conforming U) -> allocated U g1 = false.
Proof.
  intros R HC. destruct (allocated U g) eqn:A.
  - rewrite reset_allocated in R by exact A.
    destruct (fst (del_invoke U _ _ (env w))); inversion R.
    destruct u; [|reflexivity].
    destruct HC as [HC|HC]; [discriminate HC|].
    apply set_deallocated_unallocated. exact HC.
  - rewrite reset_unallocated in R by exact A. inversion R; subst. exact A.
Qed.

(** X9.  A move assignment that returns has first released the target's old
    resource (one invocation of the target's old deleter on it if the target
    was allocated, none otherwise).  Between two distinct guards, the target
    afterwards holds the resource and the deleter of the source and is
    allocated exactly when the source was, and the source is unallocated, so
    that destroying it invokes nothing.  After [g = std::move(g)] the guard
    is unallocated: its resource has been released and it owns nothing. *)
Theorem move_assign_transfers_ownership
    (u : bool) (g that g' that' : unique_resource Res Del u)
    (w w' : world Res Del Env) :
  traits_conforming U ->
  (move_assign T U (g, that) w = Exits (Normal tt, (g', that'), w') ->
   get g' = get that /\ get_deleter g' = get_deleter that /\
   allocated U g' = allocated U that /\
   allocated U that' = false /\
   calls w' = calls w ++
     (if allocated U g then [(get_deleter g, get g)] else []) /\
   (forall w0, destroy U that' w0 = (Normal tt, that', w0))) /\
  (move_assign_self T U g w = Exits (Normal tt, g', w') ->
   allocated U g' = false /\
   calls w' = calls w ++
     (if allocated U g then [(get_deleter g, get g)] else []) /\
   (forall w0, destroy U g' w0 = (Normal tt, g', w0))).
Proof.
  intros HC. split; intros H; apply noexcept_if_exits in H.
  - rewrite move_assign_body_unfold in H.
    destruct (reset U g w) as [[[[]|e] g1] w1] eqn:R; [|discriminate H].
    apply reset_inv in R. destruct R as (_ & C1 & _).
    apply data_assign_inv in H. cbn [fst snd] in H.
    destruct H as (C2 & V1 & V2 & V3 & V4).
    repeat split; auto; try congruence.
    intros w0. unfold destroy. apply reset_unallocated. auto.
  - rewrite move_assign_body_self_unfold in H.
    destruct (reset U g w) as [[[[]|e] g1] w1] eqn:R; [|discriminate H].
    apply reset_inv in R. destruct R as (_ & C1 & _).
    apply data_assign_self_inv in H. destruct H as (C2 & V).
    repeat split; auto; try congruence.
    intros w0. unfold destroy. apply reset_unallocated. auto.
Qed.

(** X10.  A move assignment exits with an exception only where its
    [operator=] is not [noexcept].  Between two distinct guards it then
    leaves the source guard exactly as it was.  The only deleter invocation
    it may have made is the one of [reset()] on the target's old resource.
    With the flag storage the target is then either untouched (the deleter
    threw) or unallocated (an assignment threw), so the resource of the
    source is owned by the source alone.  If the deleter is nothrow
    move-assignable the target still holds its old deleter, because the
    resource is assigned first.  In [g = std::move(g)] the source is the
    target: with the flag storage the guard is either untouched (the deleter
    threw) or has been reset and is unallocated (an assignment threw). *)
Theorem move_assign_failure_leaves_source_intact
    (u : bool) (g that g' that' : unique_resource Res Del u)
    (w w' : world Res Del Env) (e : Exn) :
  (move_assign T U (g, that) w = Exits (Thrown e, (g', that'), w') ->
   that' = that /\
   calls w' = calls w ++
     (if allocated U g then [(get_deleter g, get g)] else []) /\
   (u = false -> g' = g \/ allocated U g' = false) /\
   (del_nothrow_move_assignable T = true ->
    get_deleter g' = get_deleter g) /\
   res_nothrow_assignable T && del_nothrow_assignable T = false) /\
  (move_assign_self T U g w = Exits (Thrown e, g', w') ->
   calls w' = calls w ++
     (if allocated U g then [(get_deleter g, get g)] else []) /\
   (u = false -> g' = g \/ allocated U g' = false) /\
   res_nothrow_assignable T && del_nothrow_assignable T = false).
Proof.
  split; intros H; pose proof (noexcept_if_exits_thrown _ _ _ _ H) as B;
    apply noexcept_if_exits in H.
  - rewrite move_assign_body_unfold in H.
    destruct (reset U g w) as [[[[]|x] g1] w1] eqn:R.
    + pose proof R as R'. apply reset_inv in R'. destruct R' as (D1 & C1 & _).
      apply data_assign_inv in H. cbn [fst snd] in H.
      destruct H as (C2 & V1 & V2 & V3).
      split; [exact V1|]. split; [congruence|]. split; [|split; [|exact B]].
      * intros ->. right. rewrite (V2 eq_refl).
        eapply reset_normal_unallocated; [exact R|left; reflexivity].
      * intros DM. rewrite (V3 DM). exact D1.
    + pose proof R as R'. apply reset_inv in R'. destruct R' as (D1 & C1 & G).
      inversion H; subst. rewrite (G _ eq_refl).
      repeat split; auto.
  - rewrite move_assign_body_self_unfold in H.
    destruct (reset U g w) as [[[[]|x] g1] w1] eqn:R.
    + pose proof R as R'. apply reset_inv in R'. destruct R' as (D1 & C1 & _).
      apply data_assign_self_inv in H. destruct H as (C2 & V).
      split; [congruence|]. split; [|exact B].
      intros ->. right. rewrite (V eq_refl).
      eapply reset_normal_unallocated; [exact R|left; reflexivity].
    + pose proof R as R'. apply reset_inv in R'. destruct R' as (D1 & C1 & G).
      inversion H; subst. rewrite (G _ eq_refl).
      repeat split; auto.
Qed.

(** X11.  When the assignments of the resource and of the deleter are
    [noexcept], so is [operator=], and a move assignment never exits with an
    exception, between two distinct guards as in [g = std::move(g)].  It
    ends the program exactly when the target is allocated and the deleter
    throws on the target's old resource, after that one invocation; in
    every other case it returns.  If the deleter invocation is [noexcept] as
    well, move assignment always returns. *)
Theorem move_assign_nothrow_assignable
    (u : bool) (g that : unique_resource Res Del u) (w : world Res Del Env) :
  noexcept_respected T U ->
  res_nothrow_assignable T = true ->
  del_nothrow_assignable T = true ->
  let returns :=
    (exists s' w', move_assign T U (g, that) w = Exits (Normal tt, s', w')) /\
    (exists g' w', move_assign_self T U g w = Exits (Normal tt, g', w')) in
  (forall e s' w', move_assign T U (g, that) w <> Exits (Thrown e, s', w')) /\
  (forall e g' w', move_assign_self T U g w <> Exits (Thrown e, g', w')) /\
  (allocated U g = true ->
   match fst (del_invoke U (get_deleter g) (get g) (env w)) with
   | Some e =>
       move_assign T U (g, that) w =
         Terminates (after_invoke U (get_deleter g) (get g) w) /\
       move_assign_self T U g w =
         Terminates (after_invoke U (get_deleter g) (get g) w)
   | None => returns
   end) /\
  (allocated U g = false -> returns) /\
  (del_nothrow_invocable T = true -> returns).
Proof.
  intros NX HR HD returns.
  assert (B : res_nothrow_assignable T && del_nothrow_assignable T = true)
    by (rewrite HR, HD; reflexivity).
  assert (RET : forall g1 w1, reset U g w = (Normal tt, g1, w1) -> returns).
  { intros g1 w1 R. split.
    - destruct (@data_assign_nothrow u g1 that w1 NX HR HD) as (s' & w' & Q).
      exists s', w'. apply noexcept_if_normal.
      rewrite move_assign_body_unfold, R. exact Q.
    - destruct (@data_assign_self_nothrow u g1 w1 NX HR HD) as (g' & w' & Q).
      exists g', w'. apply noexcept_if_normal.
      rewrite move_assign_body_self_unfold, R. exact Q. }
  split; [|split; [|split; [|split]]].
  - intros e s' w' H. apply noexcept_if_exits_thrown in H. congruence.
  - intros e g' w' H. apply noexcept_if_exits_thrown in H. congruence.
  - intros A. pose proof (@reset_allocated u g w A) as R. unfold get.
    destruct (fst (del_invoke U _ _ (env w))) as [x|].
    + split.
      * unfold move_assign, move_assign_at.
        erewrite noexcept_if_thrown
          by (rewrite move_assign_body_unfold, R; reflexivity).
        rewrite B. reflexivity.
      * unfold move_assign_self, move_assign_at.
        erewrite noexcept_if_thrown
          by (rewrite move_assign_body_self_unfold, R; reflexivity).
        rewrite B. reflexivity.
    + exact (RET _ _ R).
  - intros A. exact (RET _ _ (@reset_unallocated u g w A)).
  - intros DI. destruct (@reset_nothrow u g w NX DI) as (g1 & w1 & R).
    exact (RET _ _ R).
Qed.

(** *** The storage selected by the traits *)

(** C7, amended.  Conforming traits select the traits storage only if
    [make_default()] is [noexcept] and the resource is nothrow assignable
    from its result.  The allocation state of that storage is the traits
    predicate on the stored resource and nothing else: two guards with the
    same resource and deleter are the same guard.  A guard whose resource is
    the default value is unallocated; a guard built from a resource is
    allocated exactly when the traits say so of that resource.  Marking a
    guard deallocated assigns the default value to the resource, keeps the
    deleter and leaves the guard unallocated, and so the default value is
    what a guard holds after [release()], after a [reset()] that ran the
    deleter and returned, and after it was the source of a move
    construction or of a move assignment that returned.  Where the flag
    storage is selected in spite of conforming traits, marking a guard
    deallocated keeps its resource, and a guard built from any resource,
    also from the default value, is allocated. *)
Theorem traits_storage_allocation
    (g h : unique_resource Res Del (use_deallocated_state T))
    (res : Res) (del : Del) (w : world Res Del Env) :
  traits_conforming U ->
  (use_deallocated_state T = true ->
   allocated U g = traits_is_allocated U (get g) /\
   (get g = get h -> get_deleter g = get_deleter h -> g = h) /\
   (get g = make_default U -> allocated U g = false) /\
   get (set_deallocated U g) = make_default U /\
   get_deleter (set_deallocated U g) = get_deleter g /\
   allocated U (set_deallocated U g) = false /\
   (forall (g' : unique_resource Res Del (use_deallocated_state T)) w',
      construct T U res del tt w = (Normal g', tt, w') ->
      get g' = res /\ allocated U g' = traits_is_allocated U res) /\
   (forall o (g' : unique_resource Res Del (use_deallocated_state T)) w',
      release U g w = (o, g', w') ->
      get g' = make_default U) /\
   (forall (g' : unique_resource Res Del (use_deallocated_state T)) w',
      allocated U g = true ->
      reset U g w = (Normal tt, g', w') -> get g' = make_default U) /\
   (forall (h' g' : unique_resource Res Del (use_deallocated_state T)) w',
      move_construct T U g w = (Normal h', g', w') ->
      get g' = make_default U) /\
   (forall (g' h' : unique_resource Res Del (use_deallocated_state T)) w',
      move_assign T U (g, h) w = Exits (Normal tt, (g', h'), w') ->
      get h' = make_default U)) /\
  (use_deallocated_state T = false ->
   get (set_deallocated U g) = get g /\
   get_deleter (set_deallocated U g) = get_deleter g /\
   allocated U (set_deallocated U g) = false /\
   (forall (g' : unique_resource Res Del (use_deallocated_state T)) w',
      construct T U res del tt w = (Normal g', tt, w') ->
      get g' = res /\ allocated U g' = true)).
Proof.
  intros HC. revert g h. generalize (use_deallocated_state T).
  intros u g h. split; intros ->.
  - split; [reflexivity|].
    split; [destruct g, h; cbn; intros -> ->; reflexivity|].
    split; [destruct g; cbn; unfold traits_data_is_allocated; cbn;
            intros ->; exact HC|].
    split; [reflexivity|]. split; [reflexivity|].
    split; [exact HC|].
    split; [|split; [|split; [|split]]].
    + intros g' w' Q. apply construct_inv in Q.
      destruct Q as (_ & Q1 & _ & Q2). auto.
    + intros o g' w' Q. unfold release, modify in Q.
      inversion Q; reflexivity.
    + intros g' w' A Q. rewrite reset_allocated in Q by exact A.
      destruct (fst (del_invoke U _ _ (env w))); inversion Q; reflexivity.
    + intros h' g' w'. destruct g as [r d]. run_move.
      destruct (del_nothrow_move_constructible T); cbn [orb];
        try destruct (del_nothrow_copy_constructible T);
        destruct (res_nothrow_move_constructible T); cbn [andb];
        repeat case_user;
        try match goal with
            | |- context [if ?a then _ else _] => destruct a
            end; cbn [andb]; repeat case_user;
        intros Q; inversion Q; reflexivity.
    + intros g' h' w' Q. apply noexcept_if_exits in Q.
      rewrite move_assign_body_unfold in Q.
      destruct (reset U g w) as [[[[]|e] g1] w1]; [|discriminate Q].
      revert Q. destruct g1 as [r1 d1], h as [r2 d2]. run_assign.
      destruct (del_nothrow_move_assignable T);
        destruct (res_nothrow_move_assignable T);
        repeat case_copy_assign;
        intros Q; inversion Q; reflexivity.
  - split; [destruct g; reflexivity|].
    split; [destruct g; reflexivity|].
    split; [reflexivity|].
    intros g' w' Q. apply construct_inv in Q.
    destruct Q as (_ & Q1 & _ & Q2). auto.
Qed.

(** *** reset with a new resource, composed *)



(** X13.  If the deleter throws on the old resource during
    [reset(newValue)], the guard is left exactly as it was, still holding
    and owning the old resource, and the stored deleter has been invoked on
    [newValue] before the exception leaves the call: the deleter has run
    once on the old resource and once on [newValue]. *)
Theorem reset_to_old_deleter_throws
    (u : bool) (g : unique_resource Res Del u) (newv : Res)
    (w : world Res Del Env) (e : Exn) :
  noexcept_respected T U ->
  allocated U g = true ->
  fst (del_invoke U (get_deleter g) (get g) (env w)) = Some e ->
  exists e' w',
    reset_to T U newv g w = (Thrown e', g, w') /\
    calls w' = calls w ++ [(get_deleter g, get g); (get_deleter g, newv)].
Proof.
  intros NX A HE. unfold reset_to.
  destruct (del_nothrow_invocable T && res_nothrow_assignable T) eqn:F.
  - apply andb_prop in F. destruct F as [F _].
    unfold get in HE. rewrite (nx_del_invoke NX F) in HE. discriminate HE.
  - unfold reset_impl_false, try_catch, bind.
    rewrite reset_allocated by exact A. unfold get in *. rewrite HE.
    unfold gets, invoke, throw, after_invoke. cbn [calls env].
    destruct (del_invoke U (get_deleter g) newv _) as [[x|] n];
      do 2 eexists; (split; [reflexivity|]); cbn;
      rewrite <- app_assoc; reflexivity.
Qed.

(** *** The noexcept specifications *)

(** X14.  The operations return whenever the condition of their [noexcept]
    specification holds: the constructor from a resource and a deleter and
    the move constructor when the resource and the deleter are nothrow
    constructible, [reset()] and the destructor when the deleter invocation
    is [noexcept], [reset(newValue)] when in addition the resource is
    nothrow assignable. *)
Theorem noexcept_operations_return
    (u : bool) (res newv : Res) (del : Del) (g : unique_resource Res Del u)
    (w : world Res Del Env) :
  noexcept_respected T U ->
  (res_nothrow_constructible T && del_nothrow_constructible T = true ->
   (exists (h : unique_resource Res Del u) w',
      construct T U res del tt w = (Normal h, tt, w')) /\
   (exists h g' w', move_construct T U g w = (Normal h, g', w'))) /\
  (del_nothrow_invocable T = true ->
   (exists g' w', reset U g w = (Normal tt, g', w')) /\
   (exists g' w', destroy U g w = (Normal tt, g', w'))) /\
  (del_nothrow_invocable T && res_nothrow_assignable T = true ->
   exists g' w', reset_to T U newv g w = (Normal tt, g', w')).
Proof.
  intros NX. split; [|split].
  - intros B. apply andb_prop in B. destruct B as [RC DC]. split.
    + destruct (@construct_res_nothrow unit res tt w NX RC) as (rr & w1 & R).
      destruct (@construct_del_nothrow unit del tt w1 NX DC) as (dd & w2 & D).
      destruct (@construct_normal u res del w w1 w2 rr dd R D) as (h & Q).
      eauto.
    + unfold res_nothrow_constructible, del_nothrow_constructible in *.
      destruct u; destruct g; run_move;
        destruct (del_nothrow_move_constructible T) eqn:DM;
        destruct (res_nothrow_move_constructible T) eqn:RM;
        cbn [orb andb] in *; rewrite ?DC;
        repeat case_user; try construct_noexcept_contradiction NX;
        do 3 eexists; reflexivity.
  - intros DI. split; [|unfold destroy]; apply reset_nothrow; assumption.
  - intros B. unfold reset_to. rewrite B.
    apply andb_prop in B. destruct B as [DI RA].
    unfold reset_impl_true, bind.
    destruct (@reset_nothrow u g w NX DI) as (g1 & w1 & R). rewrite R.
    apply assign_resource_nothrow; assumption.
Qed.

(** *** The stored deleter *)

Lemma release_inv u (g g' : unique_resource Res Del u)
    (w w' : world Res Del Env) o :
  release U g w = (o, g', w') ->
  o = Normal tt /\ get_deleter g' = get_deleter g /\ w' = w.
Proof.
  unfold release, modify. intros Q; inversion Q; subst.
  destruct u; destruct g; repeat split.
Qed.

Lemma reset_to_inv u (g g' : unique_resource Res Del u) newv
    (w w' : world Res Del Env) o :
  reset_to T U newv g w = (o, g', w') ->
  get_deleter g' = get_deleter g /\
  exists l, calls w' = calls w ++ l /\
            Forall (fun c => fst c = get_deleter g) l.
Proof.
  unfold reset_to, reset_impl_true, reset_impl_false, try_catch, bind.
  destruct (del_nothrow_invocable T && res_nothrow_assignable T);
    destruct (reset U g w) as [[[[]|e] g1] w1] eqn:R;
    apply reset_inv in R; destruct R as (D1 & C1 & _);
    try (destruct (assign_resource T U newv g1 w1) as [[[[]|x] g3] w3] eqn:A;
         apply assign_resource_inv in A; destruct A as (D2 & C2 & _));
    unfold gets, invoke, throw;
    try match goal with
        | |- context [del_invoke U ?a ?b ?c] =>
            destruct (del_invoke U a b c) as [[?|] ?]
        end;
    intros Q; inversion Q; subst; cbn [calls];
    (split; [congruence|]);
    rewrite ?C2, C1, ?D2, ?D1, <- ?app_assoc;
    eexists; (split; [reflexivity|]);
    destruct (allocated U g); cbn; repeat constructor.
Qed.

(** X15.  [reset()], [release()] and [reset(newValue)] never replace the
    stored deleter, whether they return or throw, and every deleter
    invocation they make is an invocation of that deleter. *)
Theorem deleter_never_replaced
    (u : bool) (g g' : unique_resource Res Del u) (newv : Res)
    (w w' : world Res Del Env) (o : outcome Exn unit) :
  reset U g w = (o, g', w') \/
  release U g w = (o, g', w') \/
  reset_to T U newv g w = (o, g', w') ->
  get_deleter g' = get_deleter g /\
  exists l, calls w' = calls w ++ l /\
            Forall (fun c => fst c = get_deleter g) l.
Proof.
  intros [H|[H|H]].
  - apply reset_inv in H. destruct H as (D & C & _). split; [exact D|].
    eexists. split; [exact C|].
    destruct (allocated U g); repeat constructor.
  - apply release_inv in H. destruct H as (_ & D & ->). split; [exact D|].
    exists []. rewrite app_nil_r. split; [reflexivity|constructor].
  - apply reset_to_inv in H. exact H.
Qed.

(** *** Checked construction, every outcome *)

Lemma construct_cases u res del (w w' : world Res Del Env)
    (o : outcome Exn (unique_resource Res Del u)) :
  noexcept_respected T U ->
  construct T U res del tt w = (o, tt, w') ->
  (exists g, o = Normal g /\ calls w' = calls w /\
     get g = res /\ get_deleter g = del /\
     allocated U g = denotes_allocated U u res) \/
  (exists e, o = Thrown e /\
     calls w' = calls w ++
       (if denotes_allocated U u res then [(del, res)] else [])).
Proof.
  intros NX H. destruct o as [g|e].
  - left. exists g. apply construct_inv in H. intuition.
  - right. exists e. split; [reflexivity|].
    revert H. unfold construct. rewrite data_ctor_unfold.
    destruct (construct_res T U res tt w) as [[[rr|x] []] w1] eqn:R.
    + erewrite resource_holder_3_normal by exact R.
      destruct (construct_res_inv _ _ _ R) as (_ & R1 & R2).
      destruct (R2 _ eq_refl) as [R3 _].
      destruct (construct_del T U del tt w1) as [[[dd|y] []] w2] eqn:D.
      * erewrite deleter_holder_3_normal by exact D. discriminate.
      * destruct (@deleter_holder_3_thrown _ del (fst rr)
                    (denotes_allocated U u res) tt w1 w2 y NX D)
          as (e' & w3 & Q & C & _).
        rewrite Q. intros Q'. replace w' with w3 by congruence.
        rewrite C, R1, R3. reflexivity.
    + destruct (@resource_holder_3_thrown _ res del
                  (denotes_allocated U u res) tt w w1 x NX R)
        as (e' & w3 & Q & C & _).
      rewrite Q. intros Q'. replace w' with w3 by congruence. exact C.
Qed.

(** X16.  [make_unique_resource_checked] never leaks the resource and never
    cleans up an invalid one.  If [res == invalid], no deleter is invoked,
    whether the function returns or throws.  Otherwise either it returns an
    allocated guard that holds [res] and nothing was invoked, or it throws
    after exactly one invocation of [del] on [res].  The function ends the
    program only where it is [noexcept] and [res == invalid], when an
    unallocated guard cannot be built, and then no deleter was invoked
    either. *)
Theorem make_unique_resource_checked_every_outcome
    (res : Res) (invalid : Invalid) (del : Del) (w w' : world Res Del Env)
    (o : outcome Exn (unique_resource Res Del false)) :
  noexcept_respected T U ->
  (make_unique_resource_checked T U res_equal res invalid del tt w
     = Exits (o, tt, w') ->
   if res_equal res invalid then
     calls w' = calls w /\
     (forall g, o = Normal g -> allocated U g = false /\ get_deleter g = del)
   else
     (exists g, o = Normal g /\ calls w' = calls w /\
        allocated U g = true /\ get g = res /\ get_deleter g = del) \/
     (exists e, o = Thrown e /\ calls w' = calls w ++ [(del, res)])) /\
  (make_unique_resource_checked T U res_equal res invalid del tt w
     = Terminates w' ->
   res_equal res invalid = true /\ calls w' = calls w /\
   res_nothrow_constructible T && del_nothrow_constructible T = true).
Proof.
  intros NX.
  assert (DEF : forall o1 w1,
            construct_default_resource T U (u:=false) del tt w = (o1, tt, w1) ->
            calls w1 = calls w /\
            (forall g, o1 = Normal g ->
               allocated U g = false /\ get_deleter g = del)).
  { intros o1 w1 Q. rewrite construct_default_resource_unfold in Q.
    destruct (resource_holder_0 U tt w) as [[[r|e] []] w0] eqn:R;
      destruct (resource_holder_0_inv _ _ R) as (_ & R1 & _).
    - destruct (construct_del T U del tt w0) as [[[dd|e] []] w2] eqn:D;
        destruct (construct_del_inv _ _ _ D) as (_ & D1 & D2);
        inversion Q; subst; (split; [congruence|]);
        intros g Q'; inversion Q'; subst.
      destruct (D2 _ eq_refl) as [D3 _]. cbn. auto.
    - inversion Q; subst. split; [exact R1|].
      intros g Q'; discriminate Q'. }
  unfold make_unique_resource_checked. split; intros H.
  - apply noexcept_if_exits in H.
    destruct (res_equal res invalid); cbn [negb] in H.
    + apply DEF. exact H.
    + apply construct_cases in H; [|exact NX]. cbn in H.
      destruct H as [(g & -> & C & R & D & A)|(e & -> & C)].
      * left. exists g. auto.
      * right. exists e. auto.
  - apply noexcept_if_terminates in H. destruct H as (B & e & [] & H).
    destruct (res_equal res invalid); cbn [negb] in H.
    + apply DEF in H. destruct H as [C _]. auto.
    + apply andb_prop in B. destruct B as [BR BD].
      destruct (@construct_res_nothrow unit res tt w NX BR) as (rr & w1 & R).
      destruct (@construct_del_nothrow unit del tt w1 NX BD) as (dd & w2 & D).
      destruct (@construct_normal false _ _ _ _ _ _ _ R D) as (g & G).
      congruence.
Qed.

End Properties.


(** ** The properties at the concrete template arguments *)

Lemma fd_behaviour_noexcept : noexcept_respected nothrow_types fd_behaviour.
Proof. split; intros; reflexivity. Defined.

Lemma throwing_behaviour_noexcept :
  noexcept_respected throwing_types throwing_behaviour.
Proof. split; intros H; try discriminate H; reflexivity. Defined.

Lemma throwing_deleter_noexcept :
  noexcept_respected throwing_deleter_types throwing_behaviour.
Proof. split; intros H; try discriminate H; reflexivity. Defined.

(** C1 at a descriptor [7] with traits: the destructor invokes deleter [1]
    on [7] and nothing else. *)
Lemma destroy_invokes_deleter_exactly_once_witness :
  traits_conforming fd_behaviour /\
  denotes_allocated fd_behaviour true 7%Z = true /\
  calls (snd (destroy fd_behaviour (u:=true) (TraitsData 7%Z 1) initial_world))
  = [(1, 7%Z)].
Proof.
  assert (HC : traits_conforming fd_behaviour) by reflexivity.
  assert (HD : denotes_allocated fd_behaviour true 7%Z = true) by reflexivity.
  split; [exact HC|]. split; [exact HD|].
  destruct (destroy_invokes_deleter_exactly_once nothrow_types true 7%Z 1
              initial_world (w1:=initial_world) (g:=TraitsData 7%Z 1)
              HC HD eq_refl) as (_ & _ & _ & _ & K).
  exact (proj1 (K _ _ _ eq_refl)).
Defined.

(** C2 as stated fails for a source that is not allocated: a default
    constructed guard [g] and the guard [h] move-constructed from it are both
    unallocated afterwards. *)
Lemma move_construct_from_unallocated_neither_allocated :
  let g := FlagData (-1)%Z 0 false in
  construct_default fd_behaviour (u:=false) tt initial_world
    = (Normal g, tt, initial_world) /\
  move_construct nothrow_types fd_behaviour (u:=false) g initial_world
    = (Normal (FlagData (-1)%Z 0 false), FlagData (-1)%Z 0 false,
       initial_world) /\
  ~ exactly_one_allocated fd_behaviour (u:=false)
      (FlagData (-1)%Z 0 false) (FlagData (-1)%Z 0 false).
Proof.
  cbv zeta. split; [reflexivity|]. split; [reflexivity|].
  unfold exactly_one_allocated. cbn. discriminate.
Defined.

(** C2, amended, at an allocated source. *)
Lemma move_construct_transfers_ownership_witness :
  traits_conforming fd_behaviour /\
  exactly_one_allocated fd_behaviour (u:=false)
    (FlagData 7%Z 1 false) (FlagData 7%Z 1 true).
Proof.
  assert (HC : traits_conforming fd_behaviour) by reflexivity.
  split; [exact HC|].
  destruct (move_construct_transfers_ownership nothrow_types false
              (FlagData 7%Z 1 true) (h:=FlagData 7%Z 1 true)
              (g':=FlagData 7%Z 1 false) initial_world (w':=initial_world)
              HC eq_refl) as (_ & _ & K & _).
  apply K. reflexivity.
Defined.

(** C3 where copying the deleter throws after the resource was moved into
    the guard: deleter [1] is invoked on [7] and the constructor throws. *)
Lemma construct_failure_invokes_deleter_once_witness :
  noexcept_respected throwing_deleter_types throwing_behaviour /\
  denotes_allocated throwing_behaviour false 7%Z = true /\
  exists e' w',
    construct throwing_deleter_types throwing_behaviour (u:=false) 7%Z 1 tt
      initial_world = (Thrown e', tt, w') /\
    calls w' = [(1, 7%Z)].
Proof.
  split; [exact throwing_deleter_noexcept|]. split; [reflexivity|].
  destruct (construct_failure_invokes_deleter_once false 7%Z 1 initial_world
              throwing_deleter_noexcept eq_refl) as (e' & w' & K1 & K2 & _).
  exists e', w'. split; [exact K1|exact K2].
Defined.

(** C4 for a resource that is moved and for one that is copied. *)
Lemma move_construct_deleter_failure_witness :
  traits_conforming throwing_behaviour /\
  del_nothrow_constructible throwing_deleter_types = false /\
  (exists e' that' w',
     move_construct throwing_deleter_types throwing_behaviour (u:=false)
       (FlagData 7%Z 1 true) initial_world = (Thrown e', that', w') /\
     allocated throwing_behaviour that' = false /\
     calls w' = [(1, 7%Z)]) /\
  move_construct throwing_types throwing_behaviour (u:=false)
    (FlagData 7%Z 1 true) initial_world
  = (Thrown 1, FlagData 7%Z 1 true, World [] 2).
Proof.
  assert (HC : traits_conforming throwing_behaviour) by reflexivity.
  split; [exact HC|]. split; [reflexivity|]. split.
  - destruct (move_construct_deleter_failure throwing_deleter_types false
                (FlagData 7%Z 1 true) initial_world HC eq_refl)
      as (_ & e' & that' & w' & K1 & K2 & _ & K3 & _).
    exists e', that', w'. repeat split; assumption.
  - exact (proj1 (proj2 (move_construct_deleter_failure throwing_types false
                           (FlagData 7%Z 1 true) initial_world HC eq_refl))).
Defined.


(** C6 as stated fails when the swap of the deleters throws after it has
    modified one of them: the resources and the flags are those before the
    call, the deleter of the first guard is not. *)
Lemma swap_failure_leaves_deleter_modified :
  let g := FlagData 10%Z 1 true in
  let h := FlagData 20%Z 2 false in
  swap throwing_types throwing_behaviour (u:=false) (g, h) initial_world
    = (Thrown 3, (FlagData 10%Z 2 true, h), World [] 3) /\
  (FlagData 10%Z 2 true, h) <> (g, h).
Proof.
  cbv zeta. split; [reflexivity|]. intros Q. discriminate Q.
Defined.

(** C6, amended, on the same guards: the resources are rolled back. *)
Lemma swap_failure_rolls_back_witness :
  noexcept_respected throwing_types throwing_behaviour /\
  res_nothrow_swappable throwing_types
    || del_nothrow_swappable throwing_types = true /\
  swap throwing_types throwing_behaviour (u:=false)
    (FlagData 10%Z 1 true, FlagData 20%Z 2 false) initial_world
  = (Thrown 3, (FlagData 10%Z 2 true, FlagData 20%Z 2 false), World [] 3) /\
  get (u:=false) (FlagData 10%Z 2 true) = get (u:=false) (FlagData 10%Z 1 true) /\
  get (u:=false) (FlagData 20%Z 2 false) = get (u:=false) (FlagData 20%Z 2 false).
Proof.
  split; [exact throwing_behaviour_noexcept|]. split; [reflexivity|].
  destruct (swap_failure_rolls_back false (FlagData 10%Z 1 true)
              (FlagData 20%Z 2 false) initial_world
              (w':=World [] 3)
              (s':=(FlagData 10%Z 2 true, FlagData 20%Z 2 false)) (e:=3)
              throwing_behaviour_noexcept eq_refl eq_refl)
    as (_ & (K1 & K2 & _) & _).
  split; [reflexivity|]. split; [exact K1|exact K2].
Defined.

(** C7 as stated fails for a guard constructed from an unallocated value
    other than the default: the guard made from the descriptor [-5] is
    unallocated and its resource is not the default [-1]. *)
Lemma unallocated_guard_with_non_default_resource :
  let g := TraitsData (-5)%Z 1 in
  traits_conforming fd_behaviour /\
  construct nothrow_types fd_behaviour (u:=true) (-5)%Z 1 tt initial_world
    = (Normal g, tt, initial_world) /\
  allocated fd_behaviour (u:=true) g = false /\
  get (u:=true) g <> make_default fd_behaviour /\
  ~ (allocated fd_behaviour (u:=true) g = false <->
     get (u:=true) g = make_default fd_behaviour).
Proof.
  cbv zeta. split; [reflexivity|]. split; [reflexivity|].
  split; [reflexivity|]. split.
  - cbn. discriminate.
  - cbn. intros [Q _]. specialize (Q eq_refl). discriminate Q.
Defined.

(** C7, amended, at that guard, and at a guard built from the default
    value [-1] where the flag storage is selected. *)
Lemma traits_storage_allocation_witness :
  traits_conforming fd_behaviour /\
  use_deallocated_state nothrow_types = true /\
  allocated fd_behaviour
    (set_deallocated fd_behaviour (u:=true) (TraitsData (-5)%Z 1)) = false /\
  get (snd (fst (release fd_behaviour (u:=true) (TraitsData 7%Z 1)
                   initial_world))) = (-1)%Z /\
  use_deallocated_state unassignable_default_types = false /\
  construct unassignable_default_types fd_behaviour (u:=false) (-1)%Z 1 tt
    initial_world = (Normal (FlagData (-1)%Z 1 true), tt, initial_world) /\
  allocated fd_behaviour (u:=false) (FlagData (-1)%Z 1 true) = true.
Proof.
  assert (HC : traits_conforming fd_behaviour) by reflexivity.
  split; [exact HC|]. split; [reflexivity|]. split; [|split].
  - destruct (proj1 (traits_storage_allocation nothrow_types
                       (U:=fd_behaviour)
                       (TraitsData (-5)%Z 1) (TraitsData (-5)%Z 1)
                       7%Z 1 initial_world HC) eq_refl)
      as (_ & _ & _ & _ & _ & K & _).
    exact K.
  - destruct (proj1 (traits_storage_allocation nothrow_types
                       (U:=fd_behaviour)
                       (TraitsData 7%Z 1) (TraitsData 7%Z 1)
                       7%Z 1 initial_world HC) eq_refl)
      as (_ & _ & _ & _ & _ & _ & _ & K & _).
    exact (K _ _ _ eq_refl).
  - split; [reflexivity|]. split; [reflexivity|].
    destruct (proj2 (traits_storage_allocation unassignable_default_types
                       (U:=fd_behaviour)
                       (FlagData 7%Z 1 true) (FlagData 7%Z 1 true)
                       (-1)%Z 1 initial_world HC) eq_refl)
      as (_ & _ & _ & K).
    exact (proj2 (K _ _ eq_refl)).
Defined.

(** C9 at an allocated guard. *)
Lemma release_then_destroy_invokes_nothing_witness :
  traits_conforming fd_behaviour /\
  destroy fd_behaviour
    (set_deallocated fd_behaviour (u:=true) (TraitsData 7%Z 1)) initial_world
  = (Normal tt, set_deallocated fd_behaviour (u:=true) (TraitsData 7%Z 1),
     initial_world).
Proof.
  assert (HC : traits_conforming fd_behaviour) by reflexivity.
  split; [exact HC|].
  exact (proj2 (proj2 (release_then_destroy_invokes_nothing true
                         (TraitsData 7%Z 1) initial_world HC))).
Defined.



(** ** The scenarios of the checked construction and of swap *)

(** [make_unique_resource_checked(5, 5, del)] gives an unallocated guard and
    destroying it never calls [del]. *)
Example make_checked_invalid :
  make_unique_resource_checked nothrow_types fd_behaviour Z.eqb 5%Z 5%Z 1 tt
    initial_world
  = Exits (Normal (FlagData (-1)%Z 1 false), tt, initial_world) /\
  destroy fd_behaviour (u:=false) (FlagData (-1)%Z 1 false) initial_world
  = (Normal tt, FlagData (-1)%Z 1 false, initial_world).
Proof. split; reflexivity. Qed.

(** [make_unique_resource_checked(5, 5, del)] where the default
    construction of the resource throws: the function is [noexcept]
    because resource and deleter are nothrow constructible from the
    arguments, and the program is terminated; where the function may
    throw, the exception leaves it. *)
Example make_checked_default_throws :
  make_unique_resource_checked nothrow_types throwing_default_behaviour
    Z.eqb 5%Z 5%Z 1 tt initial_world
  = Terminates (World [] 1) /\
  make_unique_resource_checked throwing_types throwing_default_behaviour
    Z.eqb 5%Z 5%Z 1 tt initial_world
  = Exits (Thrown 6, tt, World [] 1).
Proof. split; reflexivity. Qed.

(** With conforming traits whose default value cannot be assigned without
    throwing, the guard has the flag storage, and the guard built from the
    default value [-1] is allocated: destroying it invokes the deleter. *)
Example flag_storage_with_conforming_traits :
  traits_conforming fd_behaviour /\
  construct unassignable_default_types fd_behaviour
    (u:=use_deallocated_state unassignable_default_types) (-1)%Z 1 tt
    initial_world
  = (Normal (FlagData (-1)%Z 1 true), tt, initial_world) /\
  destroy fd_behaviour (u:=false) (FlagData (-1)%Z 1 true) initial_world
  = (Normal tt, FlagData (-1)%Z 1 false, World [(1, (-1)%Z)] 1).
Proof. repeat split; reflexivity. Qed.

(** [g = std::move(g)] on an allocated guard releases its resource and
    leaves it unallocated. *)
Example move_assign_to_itself :
  move_assign_self nothrow_types fd_behaviour (u:=false)
    (FlagData 7%Z 1 true) initial_world
  = Exits (Normal tt, FlagData 7%Z 1 false, World [(1, 7%Z)] 1).
Proof. reflexivity. Qed.

(** [make_unique_resource_checked(7, 5, del)] gives an allocated guard and
    destroying it calls [del(7)] exactly once. *)
Example make_checked_valid :
  make_unique_resource_checked nothrow_types fd_behaviour Z.eqb 7%Z 5%Z 1 tt
    initial_world
  = Exits (Normal (FlagData 7%Z 1 true), tt, initial_world) /\
  destroy fd_behaviour (u:=false) (FlagData 7%Z 1 true) initial_world
  = (Normal tt, FlagData 7%Z 1 false, World [(1, 7%Z)] 1).
Proof. split; reflexivity. Qed.

(** Swapping an allocated guard with an unallocated one exchanges
    resources, deleters and flags, and destroying both afterwards invokes
    only the first deleter on the first resource. *)
Example swap_exchanges_guards :
  swap nothrow_types fd_behaviour (u:=false)
    (FlagData 10%Z 1 true, FlagData 20%Z 2 false) initial_world
  = (Normal tt, (FlagData 20%Z 2 false, FlagData 10%Z 1 true), World [] 2) /\
  destroy fd_behaviour (u:=false) (FlagData 20%Z 2 false) (World [] 2)
  = (Normal tt, FlagData 20%Z 2 false, World [] 2) /\
  destroy fd_behaviour (u:=false) (FlagData 10%Z 1 true) (World [] 2)
  = (Normal tt, FlagData 10%Z 1 false, World [(1, 10%Z)] 3).
Proof. repeat split; reflexivity. Qed.

(** Calling [reset()] twice invokes the deleter once. *)
Example reset_twice :
  bind (reset fd_behaviour (u:=true)) (fun _ => reset fd_behaviour)
    (TraitsData 7%Z 1) initial_world
  = (Normal tt, TraitsData (-1)%Z 1, World [(1, 7%Z)] 1).
Proof. reflexivity. Qed.

(** ** The further properties at the concrete template arguments *)

Lemma throwing_resource_noexcept :
  noexcept_respected throwing_resource_types throwing_resource_behaviour.
Proof. split; intros H; try discriminate H; reflexivity. Defined.

Lemma throwing_invoke_noexcept :
  noexcept_respected throwing_resource_types throwing_behaviour.
Proof. split; intros H; try discriminate H; reflexivity. Defined.

(** X1 where the copy of the resource throws. *)
Lemma move_construct_nothrow_deleter_failure_witness :
  noexcept_respected throwing_resource_types throwing_resource_behaviour /\
  del_nothrow_constructible throwing_resource_types = true /\
  move_construct throwing_resource_types throwing_resource_behaviour
    (u:=false) (FlagData 7%Z 1 true) initial_world
  = (Thrown 5, FlagData 7%Z 1 true, World [] 1) /\
  calls (World (Res:=Z) (Del:=nat) [] 1) = calls initial_world.
Proof.
  split; [exact throwing_resource_noexcept|]. split; [reflexivity|].
  split; [reflexivity|].
  exact (proj1 (proj2 (move_construct_nothrow_deleter_failure
                         (T:=throwing_resource_types)
                         (U:=throwing_resource_behaviour) false
                         (FlagData 7%Z 1 true) (that':=FlagData 7%Z 1 true)
                         initial_world (w':=World [] 1) (e:=5)
                         throwing_resource_noexcept eq_refl eq_refl))).
Defined.

(** X2 where the deleter construction throws after the resource was moved:
    one invocation and no allocated guard, for one allocated guard before. *)
Lemma move_construct_conserves_obligation_witness :
  noexcept_respected throwing_deleter_types throwing_behaviour /\
  traits_conforming throwing_behaviour /\
  move_construct throwing_deleter_types throwing_behaviour (u:=false)
    (FlagData 7%Z 1 true) initial_world
  = (Thrown 1, FlagData 7%Z 1 false, World [(1, 7%Z)] 2) /\
  1 + 0 + 0 = 0 + 1.
Proof.
  split; [exact throwing_deleter_noexcept|]. split; [reflexivity|].
  split; [reflexivity|].
  exact (move_construct_conserves_obligation (T:=throwing_deleter_types)
           (U:=throwing_behaviour) false (FlagData 7%Z 1 true)
           (that':=FlagData 7%Z 1 false) initial_world
           (w':=World [(1, 7%Z)] 2) (o:=Thrown 1)
           throwing_deleter_noexcept eq_refl eq_refl).
Defined.

(** X3 with traits, and where the default construction of the resource
    throws. *)
Lemma default_resource_construction_unallocated_witness :
  traits_conforming fd_behaviour /\
  construct_default_resource nothrow_types fd_behaviour (u:=true) 1 tt
    initial_world
  = (Normal (TraitsData (-1)%Z 1), tt, initial_world) /\
  allocated fd_behaviour (u:=true) (TraitsData (-1)%Z 1) = false /\
  traits_conforming throwing_default_behaviour /\
  construct_default throwing_default_behaviour (u:=true) tt initial_world
  = (Thrown 6, tt, World [] 1) /\
  calls (World (Res:=Z) (Del:=nat) [] 1) = calls initial_world.
Proof.
  assert (HC : traits_conforming fd_behaviour) by reflexivity.
  assert (HD : traits_conforming throwing_default_behaviour) by reflexivity.
  split; [exact HC|]. split; [reflexivity|]. split; [|split; [exact HD|]].
  - destruct (@default_resource_construction_unallocated Z nat nat nat
                nothrow_types fd_behaviour true 1 initial_world
                initial_world (Normal (TraitsData (-1)%Z 1))
                HC (or_introl eq_refl))
      as (_ & K & _).
    exact (proj1 (K _ eq_refl)).
  - split; [reflexivity|].
    exact (proj1 (@default_resource_construction_unallocated Z nat nat nat
                    nothrow_types throwing_default_behaviour true 0
                    initial_world (World [] 1) (Thrown 6)
                    HD (or_intror (conj eq_refl eq_refl)))).
Defined.


(** X5 at an allocated guard. *)
Lemma reset_idempotent_witness :
  traits_conforming fd_behaviour /\
  reset fd_behaviour (u:=true) (TraitsData 7%Z 1) initial_world
  = (Normal tt, TraitsData (-1)%Z 1, World [(1, 7%Z)] 1) /\
  reset fd_behaviour (u:=true) (TraitsData (-1)%Z 1) (World [(1, 7%Z)] 1)
  = (Normal tt, TraitsData (-1)%Z 1, World [(1, 7%Z)] 1).
Proof.
  assert (HC : traits_conforming fd_behaviour) by reflexivity.
  split; [exact HC|]. split; [reflexivity|].
  exact (proj1 (proj2 (reset_idempotent (U:=fd_behaviour) true
                         (TraitsData 7%Z 1) (g1:=TraitsData (-1)%Z 1)
                         initial_world (w1:=World [(1, 7%Z)] 1)
                         HC eq_refl))).
Defined.

(** X6 with nothrow swappable parts. *)
Lemma swap_exchanges_guards_completely_witness :
  noexcept_respected nothrow_types fd_behaviour /\
  exists w',
    swap nothrow_types fd_behaviour (u:=false)
      (FlagData 10%Z 1 true, FlagData 20%Z 2 false) initial_world
    = (Normal tt, (FlagData 20%Z 2 false, FlagData 10%Z 1 true), w') /\
    calls w' = calls initial_world.
Proof.
  split; [exact fd_behaviour_noexcept|].
  exact (proj2 (swap_exchanges_guards_completely (T:=nothrow_types)
                  (U:=fd_behaviour) false (FlagData 10%Z 1 true)
                  (FlagData 20%Z 2 false) initial_world
                  fd_behaviour_noexcept) eq_refl).
Defined.

(** X7 on the same guards. *)
Lemma swap_twice_restores_witness :
  swap nothrow_types fd_behaviour (u:=false)
    (FlagData 10%Z 1 true, FlagData 20%Z 2 false) initial_world
  = (Normal tt, (FlagData 20%Z 2 false, FlagData 10%Z 1 true), World [] 2) /\
  swap nothrow_types fd_behaviour (u:=false)
    (FlagData 20%Z 2 false, FlagData 10%Z 1 true) (World [] 2)
  = (Normal tt, (FlagData 10%Z 1 true, FlagData 20%Z 2 false), World [] 4) /\
  calls (World (Res:=Z) (Del:=nat) [] 4) = calls initial_world.
Proof.
  split; [reflexivity|]. split; [reflexivity|].
  exact (proj2 (swap_twice_restores nothrow_types fd_behaviour false
                  (FlagData 10%Z 1 true) (FlagData 20%Z 2 false)
                  initial_world (w1:=World [] 2) (w2:=World [] 4)
                  (s1:=(FlagData 20%Z 2 false, FlagData 10%Z 1 true))
                  (s2:=(FlagData 10%Z 1 true, FlagData 20%Z 2 false))
                  eq_refl eq_refl)).
Defined.

(** X8 on the same guards. *)
Lemma swap_then_destroy_both_witness :
  allocated fd_behaviour (u:=false) (FlagData 10%Z 1 true) = true /\
  allocated fd_behaviour (u:=false) (FlagData 20%Z 2 false) = false /\
  calls (World (Res:=Z) (Del:=nat) [(1, 10%Z)] 3)
  = calls initial_world ++ [(1, 10%Z)].
Proof.
  split; [reflexivity|]. split; [reflexivity|].
  exact (proj2 (swap_then_destroy_both nothrow_types fd_behaviour
                  false (FlagData 10%Z 1 true) (FlagData 20%Z 2 false)
                  (g':=FlagData 20%Z 2 false) (h':=FlagData 10%Z 1 true)
                  (g2:=FlagData 20%Z 2 false) (h2:=FlagData 10%Z 1 false)
                  initial_world (w1:=World [] 2) (w2:=World [] 2)
                  (w3:=World [(1, 10%Z)] 3) (o1:=Normal tt) (o2:=Normal tt)
                  eq_refl eq_refl eq_refl eq_refl eq_refl)).
Defined.

(** X9 between two allocated guards, and for [g = std::move(g)]. *)
Lemma move_assign_transfers_ownership_witness :
  traits_conforming fd_behaviour /\
  move_assign nothrow_types fd_behaviour (u:=false)
    (FlagData 7%Z 1 true, FlagData 8%Z 2 true) initial_world
  = Exits (Normal tt, (FlagData 8%Z 2 true, FlagData 8%Z 2 false),
           World [(1, 7%Z)] 1) /\
  allocated fd_behaviour (u:=false) (FlagData 8%Z 2 false) = false /\
  move_assign_self nothrow_types fd_behaviour (u:=false)
    (FlagData 7%Z 1 true) initial_world
  = Exits (Normal tt, FlagData 7%Z 1 false, World [(1, 7%Z)] 1) /\
  allocated fd_behaviour (u:=false) (FlagData 7%Z 1 false) = false.
Proof.
  assert (HC : traits_conforming fd_behaviour) by reflexivity.
  split; [exact HC|]. split; [reflexivity|]. split; [|split; [reflexivity|]].
  - destruct (proj1 (@move_assign_transfers_ownership Z nat nat nat
                       nothrow_types fd_behaviour false
                       (FlagData 7%Z 1 true) (FlagData 8%Z 2 true)
                       (FlagData 8%Z 2 true) (FlagData 8%Z 2 false)
                       initial_world (World [(1, 7%Z)] 1) HC) eq_refl)
      as (_ & _ & _ & K & _).
    exact K.
  - destruct (proj2 (@move_assign_transfers_ownership Z nat nat nat
                       nothrow_types fd_behaviour false
                       (FlagData 7%Z 1 true) (FlagData 8%Z 2 true)
                       (FlagData 7%Z 1 false) (FlagData 8%Z 2 false)
                       initial_world (World [(1, 7%Z)] 1) HC) eq_refl)
      as (K & _).
    exact K.
Defined.

(** X10 where the copy assignment of the deleter throws: between two
    guards the source keeps its resource [8]; in [g = std::move(g)] the
    guard has been reset before the assignment throws. *)
Lemma move_assign_failure_leaves_source_intact_witness :
  move_assign throwing_types throwing_behaviour (u:=false)
    (FlagData 7%Z 1 false, FlagData 8%Z 2 true) initial_world
  = Exits (Thrown 1, (FlagData 7%Z 1 false, FlagData 8%Z 2 true),
           World [] 1) /\
  FlagData 8%Z 2 true = FlagData 8%Z 2 true /\
  move_assign_self throwing_types throwing_behaviour (u:=false)
    (FlagData 7%Z 1 true) (World [] 1)
  = Exits (Thrown 1, FlagData 7%Z 1 false, World [(1, 7%Z)] 3) /\
  calls (World (Res:=Z) (Del:=nat) [(1, 7%Z)] 3) = [(1, 7%Z)].
Proof.
  split; [reflexivity|]. split; [|split; [reflexivity|]].
  - exact (proj1 (proj1 (@move_assign_failure_leaves_source_intact
                           Z nat nat nat throwing_types throwing_behaviour
                           false (FlagData 7%Z 1 false) (FlagData 8%Z 2 true)
                           (FlagData 7%Z 1 false) (FlagData 8%Z 2 true)
                           initial_world (World [] 1) 1) eq_refl)).
  - exact (proj1 (proj2 (@move_assign_failure_leaves_source_intact
                           Z nat nat nat throwing_types throwing_behaviour
                           false (FlagData 7%Z 1 true) (FlagData 8%Z 2 true)
                           (FlagData 7%Z 1 false) (FlagData 8%Z 2 true)
                           (World [] 1) (World [(1, 7%Z)] 3) 1) eq_refl)).
Defined.

(** X11 with a deleter that throws the first time it is run: the program
    is terminated after the invocation of deleter [1] on [7]. *)
Lemma move_assign_nothrow_assignable_witness :
  noexcept_respected throwing_resource_types throwing_behaviour /\
  res_nothrow_assignable throwing_resource_types = true /\
  del_nothrow_assignable throwing_resource_types = true /\
  allocated throwing_behaviour (u:=false) (FlagData 7%Z 1 true) = true /\
  move_assign throwing_resource_types throwing_behaviour (u:=false)
    (FlagData 7%Z 1 true, FlagData 8%Z 2 true) initial_world
  = Terminates (World [(1, 7%Z)] 1).
Proof.
  split; [exact throwing_invoke_noexcept|]. split; [reflexivity|].
  split; [reflexivity|]. split; [reflexivity|].
  destruct (@move_assign_nothrow_assignable Z nat nat nat
              throwing_resource_types throwing_behaviour
              false (FlagData 7%Z 1 true) (FlagData 8%Z 2 true)
              initial_world throwing_invoke_noexcept eq_refl eq_refl)
    as (_ & _ & K & _).
  exact (proj1 (K eq_refl)).
Defined.


(** X13 with a deleter that throws the first time it is run. *)
Lemma reset_to_old_deleter_throws_witness :
  noexcept_respected throwing_types throwing_behaviour /\
  allocated throwing_behaviour (u:=false) (FlagData 7%Z 1 true) = true /\
  fst (del_invoke throwing_behaviour 1 7%Z 0) = Some 4 /\
  exists e' w',
    reset_to throwing_types throwing_behaviour (u:=false) 9%Z
      (FlagData 7%Z 1 true) initial_world
    = (Thrown e', FlagData 7%Z 1 true, w') /\
    calls w' = [(1, 7%Z); (1, 9%Z)].
Proof.
  split; [exact throwing_behaviour_noexcept|]. split; [reflexivity|].
  split; [reflexivity|].
  exact (reset_to_old_deleter_throws (T:=throwing_types)
           (U:=throwing_behaviour) false (FlagData 7%Z 1 true) 9%Z
           initial_world (e:=4) throwing_behaviour_noexcept eq_refl eq_refl).
Defined.

(** X14 where every operation is [noexcept]. *)
Lemma noexcept_operations_return_witness :
  noexcept_respected nothrow_types fd_behaviour /\
  exists g' w',
    reset_to nothrow_types fd_behaviour (u:=false) 9%Z (FlagData 7%Z 1 true)
      initial_world = (Normal tt, g', w').
Proof.
  split; [exact fd_behaviour_noexcept|].
  exact (proj2 (proj2 (noexcept_operations_return (T:=nothrow_types)
                         (U:=fd_behaviour) false 7%Z 9%Z 1
                         (FlagData 7%Z 1 true) initial_world
                         fd_behaviour_noexcept)) eq_refl).
Defined.

(** X15 for a [reset(newValue)] whose assignment throws. *)
Lemma deleter_never_replaced_witness :
  reset_to throwing_types throwing_behaviour (u:=false) 9%Z
    (FlagData 7%Z 1 false) initial_world
  = (Thrown 2, FlagData 7%Z 1 false, World [(1, 9%Z)] 2) /\
  get_deleter (u:=false) (FlagData 7%Z 1 false) = 1.
Proof.
  split; [reflexivity|].
  exact (proj1 (deleter_never_replaced throwing_types
                  (U:=throwing_behaviour) (u:=false)
                  (g:=FlagData 7%Z 1 false) (g':=FlagData 7%Z 1 false) 9%Z
                  (w:=initial_world) (w':=World [(1, 9%Z)] 2) (o:=Thrown 2)
                  (or_intror (or_intror eq_refl)))).
Defined.

(** X16 where storing the deleter throws: with a valid resource the deleter
    has been invoked on it, with an invalid one it has not; and where the
    default construction of the resource throws in the [noexcept]
    function. *)
Lemma make_unique_resource_checked_every_outcome_witness :
  noexcept_respected throwing_deleter_types throwing_behaviour /\
  make_unique_resource_checked throwing_deleter_types throwing_behaviour
    Z.eqb 7%Z 5%Z 1 tt initial_world
  = Exits (Thrown 1, tt, World [(1, 7%Z)] 2) /\
  make_unique_resource_checked throwing_deleter_types throwing_behaviour
    Z.eqb 5%Z 5%Z 1 tt initial_world
  = Exits (Thrown 1, tt, World [] 1) /\
  calls (World (Res:=Z) (Del:=nat) [] 1) = calls initial_world /\
  noexcept_respected nothrow_types throwing_default_behaviour /\
  make_unique_resource_checked nothrow_types throwing_default_behaviour
    Z.eqb 5%Z 5%Z 1 tt initial_world
  = Terminates (World [] 1) /\
  Z.eqb 5%Z 5%Z = true.
Proof.
  assert (NX : noexcept_respected nothrow_types throwing_default_behaviour)
    by (split; intros; reflexivity).
  split; [exact throwing_deleter_noexcept|]. split; [reflexivity|].
  split; [reflexivity|]. split; [|split; [exact NX|split; [reflexivity|]]].
  - exact (proj1 (proj1 (@make_unique_resource_checked_every_outcome
                           Z nat nat nat throwing_deleter_types
                           throwing_behaviour Z Z.eqb 5%Z 5%Z 1
                           initial_world (World [] 1) (Thrown 1)
                           throwing_deleter_noexcept) eq_refl)).
  - exact (proj1 (proj2 (@make_unique_resource_checked_every_outcome
                           Z nat nat nat nothrow_types
                           throwing_default_behaviour Z Z.eqb 5%Z 5%Z 1
                           initial_world (World [] 1) (Thrown 1)
                           NX) eq_refl)).
Defined.
